(** * The Gecko transcript plugin of wavesurfer.js

    A shallow embedding of [GeckoPlugin] (the plugin that downloads a Gecko
    JSON transcript, renders it as a table and binds a click handler) and
    the properties of its lifecycle: construction, loading, rendering,
    click-to-select, time-to-segment lookup and teardown.

    JavaScript numbers are IEEE 754 binary64 values: [float].  Strings are
    byte strings holding the UTF-8 encoding of the JavaScript string.  DOM
    nodes are mutable objects with identity: they live in a store indexed by
    node ids, and the plugin's fields hold ids. *)

From Stdlib Require Import ZArith Floats Ascii DecimalString DecimalNat.
From Stdlib Require String.
From stdpp Require Import gmap strings list.

(** ** Language built-ins used by the plugin *)

Module JS.

(** Exceptions the plugin can raise or run into. *)
Inductive exn :=
  | TypeError
  | SyntaxError
  | NotFoundError
  | Error (message : string).

(** *** Comparison of numbers

    [a <= b] and [a >= b] on numbers are the IEEE comparisons: both are
    false as soon as one side is NaN. *)
Definition le (a b : float) : bool := PrimFloat.leb a b.
Definition ge (a b : float) : bool := PrimFloat.leb b a.

(** *** Decimal rendering of an array index

    [ToString] applied to a nonnegative integer below 2^53 is its decimal
    numeral. *)
Definition index_to_string (n : nat) : string :=
  NilZero.string_of_uint (Nat.to_uint n).

(** *** parseInt(string), no radix argument *)

Definition is_ascii_space (c : ascii) : bool :=
  let n := nat_of_ascii c in
  (n =? 9)%nat || (n =? 10)%nat || (n =? 11)%nat || (n =? 12)%nat
  || (n =? 13)%nat || (n =? 32)%nat.

(** White space and line terminators outside ASCII, as UTF-8 byte
    sequences: U+00A0 (two bytes) and U+1680, U+2000..U+200A, U+2028,
    U+2029, U+202F, U+205F, U+3000, U+FEFF (three bytes). *)
Definition is_space2 (a b : ascii) : bool :=
  (nat_of_ascii a =? 194)%nat && (nat_of_ascii b =? 160)%nat.

Definition is_space3 (a b c : ascii) : bool :=
  let x := nat_of_ascii a in
  let y := nat_of_ascii b in
  let z := nat_of_ascii c in
  ((x =? 225) && (y =? 154) && (z =? 128))%nat
  || ((x =? 226) && (y =? 128)
      && (((128 <=? z) && (z <=? 138)) || (z =? 168) || (z =? 169)
          || (z =? 175)))%nat
  || ((x =? 226) && (y =? 129) && (z =? 159))%nat
  || ((x =? 227) && (y =? 128) && (z =? 128))%nat
  || ((x =? 239) && (y =? 187) && (z =? 191))%nat.

Fixpoint trim_start (s : string) : string :=
  match s with
  | String a s1 =>
      if is_ascii_space a then trim_start s1
      else match s1 with
           | String b s2 =>
               if is_space2 a b then trim_start s2
               else match s2 with
                    | String c s3 =>
                        if is_space3 a b c then trim_start s3 else s
                    | EmptyString => s
                    end
           | EmptyString => s
           end
  | EmptyString => s
  end.

Definition digit_value (radix : Z) (c : ascii) : option Z :=
  let n := Z.of_nat (nat_of_ascii c) in
  let v :=
    if (48 <=? n)%Z && (n <=? 57)%Z then Some (n - 48)%Z
    else if (97 <=? n)%Z && (n <=? 122)%Z then Some (n - 87)%Z
    else if (65 <=? n)%Z && (n <=? 90)%Z then Some (n - 55)%Z
    else None in
  match v with
  | Some d => if (d <? radix)%Z then Some d else None
  | None => None
  end.

(** The longest prefix of radix-[radix] digits, as a number; [None] when
    that prefix is empty. *)
Fixpoint parse_digits (radix : Z) (s : string) (acc : option Z) : option Z :=
  match s with
  | EmptyString => acc
  | String c s' =>
      match digit_value radix c with
      | Some d =>
          parse_digits radix s'
            (Some (match acc with
                   | Some a => a * radix + d
                   | None => d
                   end)%Z)
      | None => acc
      end
  end.

(** [parseInt s]: [None] is NaN.  The result is the mathematical integer;
    the final rounding to binary64 is left out, since the plugin only uses
    the result as an array index and arrays hold fewer than 2^32
    elements, where the rounding is exact. *)
Definition parseInt (s : string) : option Z :=
  let s0 := trim_start s in
  let '(sign, s1) :=
    match s0 with
    | String "-"%char r => ((-1)%Z, r)
    | String "+"%char r => (1%Z, r)
    | _ => (1%Z, s0)
    end in
  let '(radix, s2) :=
    match s1 with
    | String "0"%char (String "x"%char r) => (16%Z, r)
    | String "0"%char (String "X"%char r) => (16%Z, r)
    | _ => (10%Z, s1)
    end in
  match parse_digits radix s2 None with
  | Some m => Some (sign * m)%Z
  | None => None
  end.

(** [a[index]] for an array [a] and a number [index] (NaN is [None]):
    the element when the index is an integer within the array, else
    undefined. *)
Definition array_get {A} (a : list A) (index : option Z) : option A :=
  match index with
  | Some i => if (0 <=? i)%Z then a !! Z.to_nat i else None
  | None => None
  end.

(** *** Number.prototype.toFixed(1)

    [Number_toString] is [ToString] on numbers (shortest round-trip
    digits); [toFixed] falls back on it for NaN, the infinities and
    magnitudes from 10^21 on.  Below 10^21 the result is the integer [n]
    closest to [10 * x] (the larger one on a tie), printed with a point
    before its last digit. *)
Section ToFixed.
Variable Number_toString : float -> string.

Definition fixed1_digits (n : Z) : string :=
  let m := NilZero.string_of_uint (N.to_uint (Z.to_N n)) in
  let k := String.length m in
  let m' := if (k <=? 1)%nat then "0" +:+ m else m in
  let k' := String.length m' in
  String.substring 0 (k' - 1) m' +:+ "." +:+ String.substring (k' - 1) 1 m'.

Definition toFixed1 (x : float) : string :=
  match Prim2SF x with
  | S754_nan | S754_infinity _ => Number_toString x
  | S754_zero _ => "0.0"
  | S754_finite neg m e =>
      let s := if neg then "-" else "" in
      let big :=
        match e with
        | Zneg p => (10 ^ 21 * 2 ^ Zpos p <=? Zpos m)%Z
        | _ => (10 ^ 21 <=? Zpos m * 2 ^ e)%Z
        end in
      if big then s +:+ Number_toString (PrimFloat.abs x)
      else
        let n :=
          match e with
          | Zneg p => ((20 * Zpos m + 2 ^ Zpos p) / 2 ^ (Zpos p + 1))%Z
          | _ => (10 * Zpos m * 2 ^ e)%Z
          end in
        s +:+ fixed1_digits n
  end.
End ToFixed.

End JS.

(** ** The DOM: a store of elements with identity *)

Module DOM.

(** An element.  [textContent] is the text set through the property of
    that name; [children] and [parentNode] hold node ids; [listeners] are
    the "click" listeners added to the element, as closure ids, in the
    order of registration. *)
Record element := mkElement {
  tagName : string;
  elem_id : string;
  className : string;
  textContent : string;
  dataset : list (string * string);
  children : list nat;
  parentNode : option nat;
  listeners : list nat;
}.

Definition with_id (v : string) (e : element) : element :=
  mkElement (tagName e) v (className e) (textContent e) (dataset e)
    (children e) (parentNode e) (listeners e).
Definition with_className (v : string) (e : element) : element :=
  mkElement (tagName e) (elem_id e) v (textContent e) (dataset e)
    (children e) (parentNode e) (listeners e).
Definition with_text (v : string) (e : element) : element :=
  mkElement (tagName e) (elem_id e) (className e) v (dataset e)
    (children e) (parentNode e) (listeners e).
(** The data attributes of an element keep the order in which they were
    first set. *)
Fixpoint data_set (k v : string) (l : list (string * string))
    : list (string * string) :=
  match l with
  | [] => [(k, v)]
  | (k', v') :: l' =>
      if decide (k' = k) then (k, v) :: l' else (k', v') :: data_set k v l'
  end.

Fixpoint data_get (k : string) (l : list (string * string))
    : option string :=
  match l with
  | [] => None
  | (k', v') :: l' => if decide (k' = k) then Some v' else data_get k l'
  end.

Definition with_data (k v : string) (e : element) : element :=
  mkElement (tagName e) (elem_id e) (className e) (textContent e)
    (data_set k v (dataset e)) (children e) (parentNode e) (listeners e).
Definition with_children (v : list nat) (e : element) : element :=
  mkElement (tagName e) (elem_id e) (className e) (textContent e) (dataset e)
    v (parentNode e) (listeners e).
Definition with_parent (v : option nat) (e : element) : element :=
  mkElement (tagName e) (elem_id e) (className e) (textContent e) (dataset e)
    (children e) v (listeners e).
Definition with_listeners (v : list nat) (e : element) : element :=
  mkElement (tagName e) (elem_id e) (className e) (textContent e) (dataset e)
    (children e) (parentNode e) v.

(** The document: its nodes and the id the next created node gets. *)
Record document := mkDocument {
  nodes : gmap nat element;
  next : nat;
}.

Definition with_nodes (f : gmap nat element -> gmap nat element)
    (d : document) : document :=
  mkDocument (f (nodes d)) (next d).

Definition new_element (tag : string) : element :=
  mkElement tag "" "" "" [] [] None [].

(** document.createElement(tag) *)
Definition createElement (tag : string) (d : document) : nat * document :=
  (next d, mkDocument (<[next d := new_element tag]> (nodes d)) (S (next d))).

(** el.id = v, el.className = v, el.dataset[k] = v *)
Definition set_id (n : nat) (v : string) : document -> document :=
  with_nodes (alter (with_id v) n).
Definition set_className (n : nat) (v : string) : document -> document :=
  with_nodes (alter (with_className v) n).
Definition set_dataset (n : nat) (k v : string) : document -> document :=
  with_nodes (alter (with_data k v) n).

Definition remove_id (c : nat) (l : list nat) : list nat :=
  filter (λ x, x ≠ c) l.

(** Detach every node of [kids] from its parent. *)
Definition orphan (kids : list nat) (m : gmap nat element)
    : gmap nat element :=
  foldr (λ k, alter (with_parent None) k) m kids.

(** Remove all the children of [n], then give it the text [v]: what
    [n.textContent = v] and (for [v] empty) [n.innerHTML = ""] do. *)
Definition replace_all (n : nat) (v : string) (d : document) : document :=
  match nodes d !! n with
  | Some e =>
      with_nodes
        (λ m, alter (λ e, with_text v (with_children [] e)) n
                (orphan (children e) m)) d
  | None => d
  end.

Definition set_textContent (n : nat) (v : string) : document -> document :=
  replace_all n v.
Definition clear_innerHTML (n : nat) : document -> document :=
  replace_all n "".

(** parent.appendChild(child): the child leaves its former parent, if
    any, and becomes the last child of [parent].  (The hierarchy check
    never fails at the plugin's call sites, where the appended node was
    created by the same call and the parent is not below it.) *)
Definition appendChild (parent child : nat) (d : document) : document :=
  match nodes d !! child with
  | Some ce =>
      let detach m :=
        match parentNode ce with
        | Some q => alter (λ e, with_children (remove_id child (children e)) e) q m
        | None => m
        end in
      with_nodes
        (λ m, alter (with_parent (Some parent)) child
                (alter (λ e, with_children (children e ++ [child]) e) parent
                   (detach m))) d
  | None => d
  end.

(** parent.removeChild(child), where [child] may be undefined: a
    TypeError when it is not a node, a NotFoundError when it is not a
    child of [parent]. *)
Definition removeChild (parent : nat) (child : option nat) (d : document)
    : JS.exn + document :=
  match child with
  | None => inl JS.TypeError
  | Some c =>
      match nodes d !! c with
      | Some ce =>
          if decide (parentNode ce = Some parent) then
            inr (with_nodes
                   (λ m, alter (with_parent None) c
                           (alter (λ e, with_children
                                          (remove_id c (children e)) e)
                              parent m)) d)
          else inl JS.NotFoundError
      | None => inl JS.NotFoundError
      end
  end.

(** el.addEventListener("click", f): a listener already in the list is
    not added again. *)
Definition addEventListener (n f : nat) : document -> document :=
  with_nodes
    (alter (λ e, if decide (f ∈ listeners e) then e
                 else with_listeners (listeners e ++ [f]) e) n).

(** el.removeEventListener("click", f), where [f] may be undefined:
    nothing happens without a callback. *)
Definition removeEventListener (n : nat) (f : option nat)
    : document -> document :=
  match f with
  | Some c =>
      with_nodes
        (alter (λ e, with_listeners (remove_id c (listeners e)) e) n)
  | None => λ d, d
  end.

(** *** Reading a subtree back

    The markup below a node, without node ids: what the page shows. *)
#[warnings="-register-all"]
Inductive markup :=
  Markup (tag ident class text : string) (data : list (string * string))
    (kids : list markup).

Fixpoint view (fuel : nat) (m : gmap nat element) (n : nat)
    : option markup :=
  match fuel with
  | O => None
  | S fuel' =>
      e ← m !! n;
      kids ← mapM (view fuel' m) (children e);
      Some (Markup (tagName e) (elem_id e) (className e) (textContent e)
              (dataset e) kids)
  end.

(** *** document.getElementById(id)

    The first element, in tree order, at or below the document element
    [root] whose id is [id]; [fuel] bounds the depth of the search.  No
    element is found for the empty id. *)
Fixpoint first_found {A B} (f : A -> option B) (l : list A) : option B :=
  match l with
  | [] => None
  | x :: l' =>
      match f x with
      | Some y => Some y
      | None => first_found f l'
      end
  end.

Fixpoint find_id (fuel : nat) (m : gmap nat element) (id : string) (n : nat)
    : option nat :=
  match fuel with
  | O => None
  | S fuel' =>
      match m !! n with
      | Some e =>
          if decide (elem_id e = id) then Some n
          else first_found (find_id fuel' m id) (children e)
      | None => None
      end
  end.

Definition getElementById (fuel root : nat) (id : string) (d : document)
    : option nat :=
  if decide (id = "") then None else find_id fuel (nodes d) id root.

End DOM.

(** ** The plugin *)

Module Gecko.
Import DOM.

(** *** Data *)

(** A segment of the transcript, as the loader builds it. *)
Record anno := mkAnno {
  anno_id : nat;
  anno_start : float;
  anno_end : float;
  anno_text : string;
}.

(** The Gecko JSON document:
    [{ monologues: [ { start, end, terms: [ { text }, ... ] }, ... ] }],
    with numbers for [start] and [end] and a string for [text].  The list
    of terms may be empty, in which case [terms[0].text] throws. *)
Record term := mkTerm { term_text : string }.

Record monologue := mkMono {
  mono_start : float;
  mono_end : float;
  mono_terms : list term;
}.

Record gecko_json := mkJson { monologues : list monologue }.

(** [this.data]: [{ media: {}, annotations: [...] }]. *)
Record gecko_data := mkData {
  media : unit;
  annotations : list anno;
}.

(** [params.container] is a CSS selector, an element or missing;
    [params.url] and [params.deferInit] may be missing. *)
Inductive container_ref :=
  | Selector (sel : string)
  | ElementRef (n : nat)
  | NoContainer.

Record GeckoPluginParams := mkParams {
  param_container : container_ref;
  param_url : option string;
  param_deferInit : option bool;
}.

(** The fields of the plugin object. *)
Record GeckoPlugin := mkPlugin {
  data : option gecko_data;
  params : GeckoPluginParams;
  container : nat;
  table : option nat;
  _onClick : option nat;
}.

(** Notifications the plugin emits to its host. *)
Inductive notification :=
  | Ready (d : gecko_data)
  | Select (from to : float).

(** What lies outside the plugin object: the document, the number of
    function objects created so far, the urls of the fetches in flight
    and the notifications emitted so far. *)
Record page := mkPage {
  dom : document;
  closures : nat;
  requests : list string;
  emitted : list notification;
}.

Record state := mkState {
  this : GeckoPlugin;
  world : page;
}.

(** *** Computations: state and exceptions *)

Inductive result (A : Type) :=
  | Ok (a : A)
  | Throw (e : JS.exn).
Arguments Ok {A} a.
Arguments Throw {A} e.

Definition M (A : Type) : Type := state -> result A * state.

#[export] Instance M_ret : MRet M := λ A a s, (Ok a, s).
#[export] Instance M_bind : MBind M := λ A B f m s,
  match m s with
  | (Ok a, s') => f a s'
  | (Throw e, s') => (Throw e, s')
  end.

Definition throw {A} (e : JS.exn) : M A := λ s, (Throw e, s).
Definition get_this : M GeckoPlugin := λ s, (Ok (this s), s).
Definition set_this (f : GeckoPlugin -> GeckoPlugin) : M unit :=
  λ s, (Ok tt, mkState (f (this s)) (world s)).
Definition on_world (f : page -> page) : M unit :=
  λ s, (Ok tt, mkState (this s) (f (world s))).
Definition on_dom (f : document -> document) : M unit :=
  on_world (λ w, mkPage (f (dom w)) (closures w) (requests w) (emitted w)).

Definition with_data (v : option gecko_data) (p : GeckoPlugin) :=
  mkPlugin v (params p) (container p) (table p) (_onClick p).
Definition with_table (v : option nat) (p : GeckoPlugin) :=
  mkPlugin (data p) (params p) (container p) v (_onClick p).
Definition with_onClick (v : option nat) (p : GeckoPlugin) :=
  mkPlugin (data p) (params p) (container p) (table p) v.

(** A DOM operation that may throw. *)
Definition try_dom (f : document -> JS.exn + document) : M unit := λ s,
  let w := world s in
  match f (dom w) with
  | inr d =>
      (Ok tt, mkState (this s) (mkPage d (closures w) (requests w) (emitted w)))
  | inl e => (Throw e, s)
  end.

(** The element an event targets. *)
Definition get_element (n : nat) : M element := λ s,
  match nodes (dom (world s)) !! n with
  | Some el => (Ok el, s)
  | None => (Throw JS.TypeError, s)
  end.

(** document.createElement(tag) *)
Definition createElement (tag : string) : M nat := λ s,
  let w := world s in
  let '(n, d) := DOM.createElement tag (dom w) in
  (Ok n, mkState (this s) (mkPage d (closures w) (requests w) (emitted w))).

(** A new function object. *)
Definition new_closure : M nat := λ s,
  let w := world s in
  (Ok (closures w),
   mkState (this s)
     (mkPage (dom w) (S (closures w)) (requests w) (emitted w))).

(** fetch(url): the request is in flight until the page answers it. *)
Definition fetch (u : string) : M unit :=
  on_world (λ w, mkPage (dom w) (closures w) (requests w ++ [u]) (emitted w)).

(** Modelled from the spec: [fireEvent] comes from the Observer mixin of
    the host library, which is not among these sources.  Emission hands
    the notification to the callbacks the host registered, at once and in
    order; here it is recorded in [emitted]. *)
Definition fireEvent (n : notification) : M unit :=
  on_world (λ w, mkPage (dom w) (closures w) (requests w) (emitted w ++ [n])).

Fixpoint forEach {A} (f : A -> M unit) (l : list A) : M unit :=
  match l with
  | [] => mret tt
  | x :: l' => f x;; forEach f l'
  end.

(** Array.prototype.map with a callback that takes the element and its
    index. *)
Fixpoint map_call {A B} (f : A -> nat -> M B) (l : list A) (index : nat)
    : M (list B) :=
  match l with
  | [] => mret []
  | x :: l' => y ← f x index; ys ← map_call f l' (S index); mret (y :: ys)
  end.

(** Array.prototype.some as [getRenderedAnnotation] uses it: the callback
    stores the annotation in [result] and stops the scan when the
    interval contains [time]. *)
Fixpoint some_scan (time : float) (l : list anno) (result : option anno)
    : option anno :=
  match l with
  | [] => result
  | annotation :: l' =>
      if JS.le (anno_start annotation) time
         && JS.ge (anno_end annotation) time
      then Some annotation
      else some_scan time l' result
  end.

(** A string is truthy when it is not empty. *)
Definition truthy (u : option string) : option string :=
  match u with
  | Some "" => None
  | _ => u
  end.

(** The separator between the two times of a row, as the source file
    spells it: the three characters U+00E2 U+20AC U+201C. *)
Definition time_separator : string := "â€“".

(** The en dash, U+2013. *)
Definition en_dash : string := "–".

(** What [GeckoPlugin.create(params)] returns; [instance] is the class
    itself. *)
Record PluginDefinition := mkDefinition {
  name : string;
  deferInit : bool;
  def_params : GeckoPluginParams;
}.

(** static create(params) *)
Definition create (params : GeckoPluginParams) : PluginDefinition :=
  mkDefinition "gecko"
    (match param_deferInit params with
     | Some true => true
     | _ => false
     end)
    params.

Section Plugin.
(** [ToString] on numbers, and how the page resolves a selector when the
    plugin is constructed: to an element, to null, or not at all when
    the selector is not valid. *)
Variable Number_toString : float -> string.
Variable querySelector : string -> JS.exn + option nat.

Definition toFixed1 := JS.toFixed1 Number_toString.

(** constructor(params, ws) *)
Definition constructor (params : GeckoPluginParams) (w : page)
    : result GeckoPlugin * page :=
  let found :=
    match param_container params with
    | Selector sel => querySelector sel
    | ElementRef n => inr (Some n)
    | NoContainer => inr None
    end in
  match found with
  | inl e => (Throw e, w)
  | inr None => (Throw (JS.Error "No container for Gecko"), w)
  | inr (Some c) => (Ok (mkPlugin None params c None None), w)
  end.

(** render(annotations) *)
Definition render_row (anno : anno) (tbody : nat) : M unit :=
  row ← createElement "tr";
  on_dom (set_id row ("wavesurfer-annotation-" +:+ JS.index_to_string (anno_id anno)));;
  on_dom (appendChild tbody row);;
  timeTd ← createElement "td";
  on_dom (set_className timeTd "wavesurfer-time");;
  on_dom (set_textContent timeTd
            (toFixed1 (anno_start anno) +:+ time_separator
             +:+ toFixed1 (anno_end anno)));;
  on_dom (appendChild row timeTd);;
  textTd ← createElement "td";
  on_dom (set_id textTd ("wavesurfer-text-" +:+ JS.index_to_string (anno_id anno)));;
  on_dom (set_dataset textTd "ref" (JS.index_to_string (anno_id anno)));;
  on_dom (set_dataset textTd "start" (Number_toString (anno_start anno)));;
  on_dom (set_dataset textTd "end" (Number_toString (anno_end anno)));;
  on_dom (set_textContent textTd (anno_text anno));;
  on_dom (set_className textTd "wavesurfer-tier-");;
  on_dom (appendChild row textTd).

Definition render (annotations : list anno) : M unit :=
  table ← createElement "table";
  set_this (with_table (Some table));;
  on_dom (set_className table "wavesurfer-annotations");;
  thead ← createElement "thead";
  headRow ← createElement "tr";
  on_dom (appendChild thead headRow);;
  on_dom (appendChild table thead);;
  timeTh ← createElement "th";
  on_dom (set_textContent timeTh "Time");;
  on_dom (set_className timeTh "wavesurfer-time");;
  on_dom (appendChild headRow timeTh);;
  textTh ← createElement "th";
  on_dom (set_className textTh "wavesurfer-tier-");;
  on_dom (set_textContent textTh "Text");;
  on_dom (appendChild headRow textTh);;
  tbody ← createElement "tbody";
  on_dom (appendChild table tbody);;
  forEach (λ anno, render_row anno tbody) annotations;;
  t ← get_this;
  on_dom (clear_innerHTML (container t));;
  on_dom (appendChild (container t) table).

(** The body of the arrow function [this._onClick], called with an
    event whose target is the element [target]. *)
Definition onClick (target : nat) : M unit :=
  t ← get_this;
  el ← get_element target;
  match data_get "ref" (dataset el) with
  | Some ref =>
      let index := JS.parseInt ref in
      match data t with
      | Some d =>
          match JS.array_get (annotations d) index with
          | Some annot =>
              fireEvent (Select (anno_start annot) (anno_end annot))
          | None => mret tt
          end
      | None => throw JS.TypeError
      end
  | None => mret tt
  end.

(** bindClick() *)
Definition bindClick : M unit :=
  f ← new_closure;
  set_this (with_onClick (Some f));;
  t ← get_this;
  on_dom (addEventListener (container t) f).

(** init(), up to the fetch *)
Definition init : M unit :=
  set_this (with_data (Some (mkData tt [])));;
  t ← get_this;
  match truthy (param_url (params t)) with
  | Some u => fetch u
  | None => mret tt
  end.

(** init(), the callback that receives the parsed document *)
Definition init_then (jsondata : gecko_json) : M unit :=
  let monologues := monologues jsondata in
  annotations ← map_call
    (λ mono index,
       match mono_terms mono with
       | t0 :: _ =>
           mret (mkAnno index (mono_start mono) (mono_end mono)
                   (term_text t0))
       | [] => throw JS.TypeError
       end) monologues 0;
  render annotations;;
  t ← get_this;
  match data t with
  | Some d => set_this (with_data (Some (mkData (media d) annotations)))
  | None => throw JS.TypeError
  end;;
  bindClick;;
  t ← get_this;
  match data t with
  | Some d => fireEvent (Ready d)
  | None => throw JS.TypeError
  end.

(** destroy() *)
Definition destroy : M unit :=
  t ← get_this;
  on_dom (removeEventListener (container t) (_onClick t));;
  try_dom (removeChild (container t) (table t)).

(** getRenderedAnnotation(time) *)
Definition getRenderedAnnotation (time : float) : M (option anno) :=
  t ← get_this;
  match data t with
  | Some d => mret (some_scan time (annotations d) None)
  | None => throw JS.TypeError
  end.

(** getAnnotationNode(annotation), on a page whose document element is
    [root]; [fuel] bounds the depth [getElementById] searches. *)
Definition getAnnotationNode (fuel root : nat) (annotation : anno)
    : M (option nat) :=
  λ s,
    (Ok (getElementById fuel root
           ("wavesurfer-annotation-"
            +:+ JS.index_to_string (anno_id annotation))
           (dom (world s))),
     s).

(** *** What happens to a constructed plugin *)

(** The page answers the oldest fetch in flight with a parsed document:
    the callback of [init] runs; an exception in it is lost with the
    promise.  Without a fetch in flight there is nothing to answer. *)
Definition respond (jsondata : gecko_json) (s : state) : state :=
  match requests (world s) with
  | [] => s
  | _ :: rest =>
      let w := world s in
      snd (init_then jsondata
             (mkState (this s)
                (mkPage (dom w) (closures w) rest (emitted w))))
  end.

(** The oldest fetch in flight fails, or its body is not JSON: no
    callback runs. *)
Definition fail_request (s : state) : state :=
  let w := world s in
  mkState (this s) (mkPage (dom w) (closures w) (tail (requests w)) (emitted w)).

(** A click event reaches the container: the listeners registered on it
    run in order, each of them a function made by [bindClick]. *)
Definition click (target : nat) (s : state) : state :=
  match nodes (dom (world s)) !! container (this s) with
  | Some ce => foldl (λ s' _, snd (onClick target s')) s (listeners ce)
  | None => s
  end.

Inductive action :=
  | CallInit
  | CallDestroy
  | CallGetRenderedAnnotation (time : float)
  | Respond (jsondata : gecko_json)
  | FailRequest
  | Click (target : nat).

Definition step (s : state) (a : action) : state :=
  match a with
  | CallInit => snd (init s)
  | CallDestroy => snd (destroy s)
  | CallGetRenderedAnnotation time => snd (getRenderedAnnotation time s)
  | Respond jsondata => respond jsondata s
  | FailRequest => fail_request s
  | Click target => click target s
  end.

Definition run (s : state) (l : list action) : state := foldl step s l.

End Plugin.

End Gecko.

Import DOM Gecko.

(** ** Reasoning about computations *)

Ltac run_M :=
  unfold mbind, M_bind, mret, M_ret, throw, get_this, set_this, on_dom,
    on_world, try_dom, fireEvent, fetch, new_closure, get_element; simpl.

(** ** Time-to-segment lookup *)

(** The interval of [a] contains [time], both ends included. *)
Definition contains (time : float) (a : anno) : bool :=
  JS.le (anno_start a) time && JS.le time (anno_end a).

Lemma some_scan_first time l :
  match some_scan time l None with
  | Some a =>
      ∃ l1 l2, l = l1 ++ a :: l2 ∧ contains time a = true
               ∧ Forall (λ b, contains time b = false) l1
  | None => Forall (λ b, contains time b = false) l
  end.
Proof.
  induction l as [|b l IH]; simpl; [constructor|].
  change (JS.le (anno_start b) time && JS.ge (anno_end b) time)
    with (contains time b).
  destruct (contains time b) eqn:Hb.
  - exists [], l. auto.
  - destruct (some_scan time l None) as [a|].
    + destruct IH as (l1 & l2 & -> & Ha & Hl1).
      exists (b :: l1), l2. auto.
    + constructor; auto.
Qed.

Definition example_annotations : list anno :=
  [mkAnno 0 0%float 1.25%float "hi"; mkAnno 1 1.25%float 3%float "bye"].

(** C1. [getRenderedAnnotation time], on a plugin whose data holds the
    annotation list, returns the first annotation of the list whose
    interval contains [time] (start <= time and time <= end), returns
    nothing when no interval contains [time], and leaves the state as it
    is.  On the two segments [0, 1.25] and [1.25, 3], the time 1.25 gives
    the segment with id 0. *)
Theorem getRenderedAnnotation_first_match (s : state) (d : gecko_data)
    (time : float) :
  data (this s) = Some d →
  (∃ r, getRenderedAnnotation time s = (Ok r, s)
        ∧ match r with
          | Some a =>
              ∃ l1 l2, annotations d = l1 ++ a :: l2
                       ∧ contains time a = true
                       ∧ Forall (λ b, contains time b = false) l1
          | None => Forall (λ b, contains time b = false) (annotations d)
          end)
  ∧ (annotations d = example_annotations →
     fst (getRenderedAnnotation 1.25%float s)
     = Ok (Some (mkAnno 0 0%float 1.25%float "hi"))).
Proof.
  intros Hd. split.
  - exists (some_scan time (annotations d) None). split.
    + unfold getRenderedAnnotation. run_M. rewrite Hd. reflexivity.
    + apply some_scan_first.
  - intros Hl. unfold getRenderedAnnotation. run_M. rewrite Hd, Hl.
    reflexivity.
Qed.

Definition example_state : state :=
  mkState
    (mkPlugin (Some (mkData tt example_annotations))
       (mkParams (ElementRef 0) (Some "t.json") None) 0 None None)
    (mkPage (mkDocument ∅ 1) 0 [] []).

Lemma getRenderedAnnotation_first_match_witness :
  ∃ r, getRenderedAnnotation 2%float example_state = (Ok r, example_state)
       ∧ r = Some (mkAnno 1 1.25%float 3%float "bye").
Proof.
  destruct (getRenderedAnnotation_first_match example_state
              (mkData tt example_annotations) 2%float eq_refl)
    as [(r & Hr & _) _].
  exists r. split; [exact Hr|].
  vm_compute in Hr. congruence.
Defined.

(** ** Construction *)

(** The element [params.container] stands for, if any: the element
    itself, or the one the selector resolves to. *)
Definition resolved_container (querySelector : string -> JS.exn + option nat)
    (params : GeckoPluginParams) : option nat :=
  match param_container params with
  | Selector sel =>
      match querySelector sel with
      | inr found => found
      | inl _ => None
      end
  | ElementRef n => Some n
  | NoContainer => None
  end.

Lemma constructor_resolved querySelector params w c :
  resolved_container querySelector params = Some c →
  constructor querySelector params w
  = (Ok (mkPlugin None params c None None), w).
Proof.
  unfold resolved_container, constructor.
  destruct (param_container params) as [sel|n|]; [|congruence..].
  destruct (querySelector sel) as [e|[c'|]]; congruence.
Qed.

(** C5. When [params.container] resolves to no element, the constructor
    throws, returns no plugin and leaves the page (document, fetches,
    notifications) exactly as it was. *)
Theorem constructor_unresolved_throws
    (querySelector : string -> JS.exn + option nat)
    (params : GeckoPluginParams) (w : page) :
  resolved_container querySelector params = None →
  ∃ e, constructor querySelector params w = (Throw e, w).
Proof.
  unfold resolved_container, constructor.
  destruct (param_container params) as [sel|n|].
  - destruct (querySelector sel) as [e|[c|]]; [eauto|congruence|eauto].
  - congruence.
  - eauto.
Qed.

Definition example_querySelector (sel : string) : JS.exn + option nat :=
  if decide (sel = "#annotations") then inr (Some 0)
  else if decide (sel = "") then inl JS.SyntaxError
  else inr None.

Definition example_page : page :=
  mkPage
    (mkDocument
       {[ 0 := mkElement "div" "annotations" "" "" [] [] None [] ]} 1)
    0 [] [].

Lemma constructor_unresolved_throws_witness :
  constructor example_querySelector
    (mkParams (Selector "#missing") (Some "t.json") None) example_page
  = (Throw (JS.Error "No container for Gecko"), example_page).
Proof.
  destruct (constructor_unresolved_throws example_querySelector
              (mkParams (Selector "#missing") (Some "t.json") None)
              example_page eq_refl) as [e He].
  rewrite He. vm_compute in He. congruence.
Defined.

(** ** Calls before anything was loaded *)

Lemma constructor_fields querySelector params w t w' :
  constructor querySelector params w = (Ok t, w') →
  w' = w ∧ data t = None ∧ table t = None ∧ _onClick t = None
  ∧ Gecko.params t = params
  ∧ resolved_container querySelector params = Some (container t).
Proof.
  unfold constructor, resolved_container.
  destruct (param_container params) as [sel|n|].
  - destruct (querySelector sel) as [e|[c|]]; intros [= <- <-]; auto 10.
  - intros [= <- <-]; auto 10.
  - intros [=].
Qed.

Lemma init_no_url s :
  truthy (param_url (params (this s))) = None →
  init s = (Ok tt, mkState (with_data (Some (mkData tt [])) (this s)) (world s)).
Proof. unfold init. run_M. intros ->. reflexivity. Qed.

Lemma destroy_no_table s :
  table (this s) = None →
  _onClick (this s) = None →
  destroy s = (Throw JS.TypeError, s).
Proof.
  unfold destroy. run_M. intros -> ->. simpl. destruct s as [t [d c r e]].
  destruct d. reflexivity.
Qed.

(** C9. [destroy] on a plugin that has not rendered yet (its [table]
    field is undefined) throws a TypeError at [removeChild] instead of
    returning; this is the case right after construction and after an
    [init] without url, and then the state is left as it was. *)
Theorem destroy_before_render_throws
    (querySelector : string -> JS.exn + option nat)
    (params : GeckoPluginParams) (w w' : page) (t : GeckoPlugin) :
  constructor querySelector params w = (Ok t, w') →
  (∀ s, table (this s) = None → fst (destroy s) = Throw JS.TypeError)
  ∧ destroy (mkState t w') = (Throw JS.TypeError, mkState t w')
  ∧ (truthy (param_url params) = None →
     let s := snd (init (mkState t w')) in
     destroy s = (Throw JS.TypeError, s)).
Proof.
  intros Hc. apply constructor_fields in Hc as (-> & Hd & Ht & Ho & Hp & _).
  split; [|split].
  - intros s Hs. unfold destroy. run_M. rewrite Hs.
    destruct (_onClick (this s)); reflexivity.
  - apply destroy_no_table; assumption.
  - intros Hu. rewrite init_no_url by (simpl; rewrite Hp; exact Hu).
    apply destroy_no_table; simpl; assumption.
Qed.

Definition example_params : GeckoPluginParams :=
  mkParams (Selector "#annotations") (Some "t.json") None.

Definition example_plugin : GeckoPlugin :=
  mkPlugin None example_params 0 None None.

Lemma destroy_before_render_throws_witness :
  destroy (mkState example_plugin example_page)
  = (Throw JS.TypeError, mkState example_plugin example_page).
Proof.
  exact (proj1 (proj2 (destroy_before_render_throws example_querySelector
                         example_params example_page example_page
                         example_plugin eq_refl))).
Defined.

(** C10. Before [init] the [data] field is null and
    [getRenderedAnnotation] throws a TypeError for every time; after an
    [init] without url the annotation list is empty and
    [getRenderedAnnotation] returns nothing for every time. *)
Theorem getRenderedAnnotation_needs_init
    (querySelector : string -> JS.exn + option nat)
    (params : GeckoPluginParams) (w w' : page) (t : GeckoPlugin)
    (time : float) :
  constructor querySelector params w = (Ok t, w') →
  getRenderedAnnotation time (mkState t w')
  = (Throw JS.TypeError, mkState t w')
  ∧ (truthy (param_url params) = None →
     let s := snd (init (mkState t w')) in
     getRenderedAnnotation time s = (Ok None, s)).
Proof.
  intros Hc. apply constructor_fields in Hc as (-> & Hd & Ht & Ho & Hp & _).
  split.
  - unfold getRenderedAnnotation. run_M. rewrite Hd. reflexivity.
  - intros Hu. rewrite init_no_url by (simpl; rewrite Hp; exact Hu).
    reflexivity.
Qed.

Definition example_params_no_url : GeckoPluginParams :=
  mkParams (Selector "#annotations") None None.

Lemma getRenderedAnnotation_needs_init_witness :
  fst (getRenderedAnnotation 1.25%float
         (mkState (mkPlugin None example_params_no_url 0 None None)
            example_page))
  = Throw JS.TypeError
  ∧ fst (getRenderedAnnotation 1.25%float
           (snd (init (mkState (mkPlugin None example_params_no_url 0 None None)
                         example_page))))
    = Ok None.
Proof.
  destruct (getRenderedAnnotation_needs_init example_querySelector
              example_params_no_url example_page example_page
              (mkPlugin None example_params_no_url 0 None None)
              1.25%float eq_refl) as [H1 H2].
  split.
  - rewrite H1. reflexivity.
  - rewrite (H2 eq_refl). reflexivity.
Defined.

(** ** Click-to-select *)

(** The state after one more notification. *)
Definition emit (n : notification) (s : state) : state :=
  let w := world s in
  mkState (this s) (mkPage (dom w) (closures w) (requests w) (emitted w ++ [n])).

(** The stored annotation the segment-id marker of [target] resolves to:
    the target carries a [ref] data attribute, and the integer it parses
    to is the index of an annotation of [this.data]. *)
Definition clicked_annotation (s : state) (target : nat) : option anno :=
  el ← nodes (dom (world s)) !! target;
  ref ← data_get "ref" (dataset el);
  d ← data (this s);
  JS.array_get (annotations d) (JS.parseInt ref).

Lemma onClick_spec target s :
  snd (onClick target s)
  = match clicked_annotation s target with
    | Some a => emit (Select (anno_start a) (anno_end a)) s
    | None => s
    end.
Proof.
  unfold onClick, clicked_annotation. run_M.
  destruct (nodes (dom (world s)) !! target) as [el|]; simpl; [|done].
  destruct (data_get "ref" (dataset el)) as [ref|]; simpl; [|done].
  destruct (data (this s)) as [d|]; simpl; [|done].
  destruct (JS.array_get (annotations d) (JS.parseInt ref)); done.
Qed.

Lemma click_one_listener s target ce f :
  nodes (dom (world s)) !! container (this s) = Some ce →
  listeners ce = [f] →
  click target s = snd (onClick target s).
Proof. unfold click. intros -> ->. reflexivity. Qed.

Lemma click_no_listener s target ce :
  nodes (dom (world s)) !! container (this s) = Some ce →
  listeners ce = [] →
  click target s = s.
Proof. unfold click. intros -> ->. reflexivity. Qed.

(** ** Initialisation without url *)

Lemma getRenderedAnnotation_state time s :
  snd (getRenderedAnnotation time s) = s.
Proof.
  unfold getRenderedAnnotation. run_M. destruct (data (this s)); done.
Qed.

Lemma click_nothing_stored s target :
  (∀ d, data (this s) = Some d → annotations d = []) →
  click target s = s.
Proof.
  intros Hd. unfold click.
  destruct (nodes (dom (world s)) !! container (this s)) as [ce|]; [|done].
  induction (listeners ce) as [|f l IH]; simpl; [done|].
  rewrite onClick_spec.
  replace (clicked_annotation s target) with (@None anno); [exact IH|].
  unfold clicked_annotation.
  destruct (nodes (dom (world s)) !! target) as [el|]; simpl; [|done].
  destruct (data_get "ref" (dataset el)) as [ref|]; simpl; [|done].
  destruct (data (this s)) as [d|] eqn:E; simpl; [|done].
  rewrite (Hd d eq_refl). unfold JS.array_get.
  destruct (JS.parseInt ref) as [i|]; [|done].
  destruct (0 <=? i)%Z; done.
Qed.

(** A plugin without url that has loaded nothing, on the page [w]. *)
Definition nothing_loaded (w : page) (s : state) : Prop :=
  truthy (param_url (params (this s))) = None
  ∧ table (this s) = None
  ∧ _onClick (this s) = None
  ∧ (∀ d, data (this s) = Some d → annotations d = [])
  ∧ world s = w.

Lemma nothing_loaded_step ts w s a :
  requests w = [] →
  nothing_loaded w s → nothing_loaded w (step ts s a).
Proof.
  intros Hw (Hu & Ht & Ho & Hd & Hs). destruct a; simpl.
  - rewrite init_no_url by done. repeat split; simpl; try done.
    intros d [= <-]. done.
  - rewrite destroy_no_table by done. done.
  - rewrite getRenderedAnnotation_state. done.
  - unfold respond. rewrite Hs, Hw. rewrite <- Hs. done.
  - unfold fail_request. rewrite Hs, Hw. simpl. repeat split; try done.
    simpl. rewrite <- Hw. destruct w; done.
  - rewrite click_nothing_stored by done. done.
Qed.

Lemma nothing_loaded_run ts w l : ∀ s,
  requests w = [] →
  nothing_loaded w s → nothing_loaded w (run ts s l).
Proof.
  induction l as [|a l IH]; intros s Hw Hs; simpl; [done|].
  apply IH; [done|]. by apply nothing_loaded_step.
Qed.

(** C7. A plugin constructed without url (absent, or the empty string)
    on a page where none of its fetches is in flight loads nothing,
    whatever happens after [init]: through every sequence of later calls,
    answers and clicks no fetch is issued, the document is untouched, no
    click handler is bound, no table is kept and no notification ("ready"
    or other) is emitted. *)
Theorem init_without_url_loads_nothing
    (Number_toString : float -> string)
    (querySelector : string -> JS.exn + option nat)
    (params : GeckoPluginParams) (w w' : page) (t : GeckoPlugin)
    (later : list action) :
  constructor querySelector params w = (Ok t, w') →
  truthy (param_url params) = None →
  requests w = [] →
  let s := run Number_toString (mkState t w') (CallInit :: later) in
  requests (world s) = []
  ∧ dom (world s) = dom w
  ∧ emitted (world s) = emitted w
  ∧ closures (world s) = closures w
  ∧ _onClick (this s) = None
  ∧ table (this s) = None.
Proof.
  intros Hc Hu Hw s.
  apply constructor_fields in Hc as (-> & Hd & Ht & Ho & Hp & _).
  assert (nothing_loaded w s) as (_ & Ht' & Ho' & _ & Hs).
  { apply nothing_loaded_run; [done|].
    repeat split; simpl; try done.
    - by rewrite Hp.
    - intros d. rewrite Hd. done. }
  rewrite Hs. done.
Qed.

Lemma init_without_url_loads_nothing_witness :
  let s := run (λ _, "") (mkState (mkPlugin None example_params_no_url 0 None None)
                            example_page)
             [CallInit; Click 0; Respond (mkJson []); CallDestroy] in
  world s = example_page ∧ _onClick (this s) = None.
Proof.
  destruct (init_without_url_loads_nothing (λ _, "") example_querySelector
              example_params_no_url example_page example_page
              (mkPlugin None example_params_no_url 0 None None)
              [Click 0; Respond (mkJson []); CallDestroy]
              eq_refl eq_refl eq_refl) as (H1 & H2 & H3 & H4 & H5 & H6).
  split; [|exact H5]. vm_compute. reflexivity.
Defined.

(** ** Rendering *)

(** *** Running the code step by step *)

Lemma bind_Ok {A B} (m : M A) (f : A → M B) s a s' :
  m s = (Ok a, s') → (m ≫= f) s = f a s'.
Proof. unfold mbind, M_bind. intros ->. reflexivity. Qed.

Lemma bind_Throw {A B} (m : M A) (f : A → M B) s e s' :
  m s = (Throw e, s') → (m ≫= f) s = (Throw e, s').
Proof. unfold mbind, M_bind. intros ->. reflexivity. Qed.

Lemma createElement_run tag t m k c r e :
  createElement tag (mkState t (mkPage (mkDocument m k) c r e))
  = (Ok k,
     mkState t
       (mkPage (mkDocument (<[k := new_element tag]> m) (S k)) c r e)).
Proof. reflexivity. Qed.

Lemma on_dom_run f t d c r e :
  on_dom f (mkState t (mkPage d c r e))
  = (Ok tt, mkState t (mkPage (f d) c r e)).
Proof. reflexivity. Qed.

Lemma set_this_run f t w :
  set_this f (mkState t w) = (Ok tt, mkState (f t) w).
Proof. reflexivity. Qed.

Lemma get_this_run t w : get_this (mkState t w) = (Ok t, mkState t w).
Proof. reflexivity. Qed.

Lemma set_id_run n v m k :
  set_id n v (mkDocument m k) = mkDocument (alter (with_id v) n m) k.
Proof. reflexivity. Qed.

Lemma set_className_run n v m k :
  set_className n v (mkDocument m k)
  = mkDocument (alter (with_className v) n m) k.
Proof. reflexivity. Qed.

Lemma set_dataset_run n a v m k :
  set_dataset n a v (mkDocument m k)
  = mkDocument (alter (DOM.with_data a v) n m) k.
Proof. reflexivity. Qed.

(** [parent.appendChild(child)] at the element level. *)
Definition append_child (c : nat) (e : element) : element :=
  with_children (children e ++ [c]) e.

Lemma appendChild_fresh p c m k ce :
  m !! c = Some ce → parentNode ce = None →
  appendChild p c (mkDocument m k)
  = mkDocument
      (alter (with_parent (Some p)) c (alter (append_child c) p m)) k.
Proof.
  intros Hc Hp. unfold appendChild, with_nodes. cbn [nodes next].
  rewrite Hc, Hp. reflexivity.
Qed.

Lemma set_textContent_leaf n v m k e :
  m !! n = Some e → children e = [] →
  set_textContent n v (mkDocument m k)
  = mkDocument (alter (with_text v) n m) k.
Proof.
  intros Hn Hc. unfold set_textContent, replace_all, with_nodes.
  cbn [nodes next]. rewrite Hn, Hc. cbn [orphan foldr]. f_equal.
  apply alter_ext. intros x Hx. rewrite Hn in Hx. injection Hx as <-.
  destruct e; cbn in *; subst; reflexivity.
Qed.

(** The container loses its children and its text. *)
Definition emptied (e : element) : element :=
  with_text "" (with_children [] e).

Lemma clear_innerHTML_run n m k e :
  m !! n = Some e →
  clear_innerHTML n (mkDocument m k)
  = mkDocument (alter emptied n (orphan (children e) m)) k.
Proof.
  intros Hn. unfold clear_innerHTML, replace_all, with_nodes.
  cbn [nodes next]. rewrite Hn. reflexivity.
Qed.

Ltac map_norm :=
  repeat first [rewrite alter_insert_eq | rewrite alter_insert_ne by lia].

Ltac solve_lookup :=
  repeat (rewrite lookup_insert_ne by lia); apply lookup_insert_eq.

Ltac dom_step :=
  first
    [ rewrite set_id_run
    | rewrite set_className_run
    | rewrite set_dataset_run
    | erewrite set_textContent_leaf by (first [solve_lookup | reflexivity])
    | erewrite appendChild_fresh by (first [solve_lookup | reflexivity]) ];
  map_norm.

Ltac step :=
  first
    [ erewrite bind_Ok by apply createElement_run
    | erewrite bind_Ok by apply on_dom_run
    | erewrite bind_Ok by apply set_this_run
    | erewrite bind_Ok by apply get_this_run
    | rewrite on_dom_run ];
  cbv beta; try dom_step.

Lemma lookup_orphan_ne kids (m : gmap nat element) i :
  i ∉ kids → orphan kids m !! i = m !! i.
Proof.
  induction kids as [|k kids IH]; intros Hi; cbn [orphan foldr]; [done|].
  apply not_elem_of_cons in Hi as [Hne Hi].
  rewrite lookup_alter_ne by done. by apply IH.
Qed.

Lemma view_node f (m : gmap nat element) n e kids :
  m !! n = Some e →
  mapM (view f m) (children e) = Some kids →
  view (S f) m n
  = Some (Markup (tagName e) (elem_id e) (className e) (textContent e)
            (dataset e) kids).
Proof.
  intros Hn Hk. cbn [view]. rewrite Hn. cbn [mbind option_bind].
  rewrite Hk. reflexivity.
Qed.

Lemma mapM_cons_Some {A B} (f : A → option B) x l y ys :
  f x = Some y → mapM f l = Some ys → mapM f (x :: l) = Some (y :: ys).
Proof. intros Hx Hl. apply mapM_Some. constructor; [done|]. by apply mapM_Some. Qed.

Lemma view_inv f (m : gmap nat element) n t :
  view (S f) m n = Some t →
  ∃ e kids, m !! n = Some e ∧ mapM (view f m) (children e) = Some kids
    ∧ t = Markup (tagName e) (elem_id e) (className e) (textContent e)
            (dataset e) kids.
Proof.
  cbn [view]. destruct (m !! n) as [e|]; cbn [mbind option_bind]; [|done].
  destruct (mapM (view f m) (children e)) as [kids|] eqn:Hk; [|done].
  intros [= <-]. exists e, kids. done.
Qed.

Lemma view_more f : ∀ (m : gmap nat element) n t,
  view f m n = Some t → view (S f) m n = Some t.
Proof.
  induction f as [|f IH]; intros m n t; [done|].
  intros (e & kids & Hn & Hk & ->)%view_inv.
  apply view_node; [done|].
  apply mapM_Some. apply mapM_Some in Hk.
  eapply Forall2_impl; [exact Hk|]. intros x y. apply IH.
Qed.

Lemma view_enough f f' (m : gmap nat element) n t :
  f ≤ f' → view f m n = Some t → view f' m n = Some t.
Proof. induction 1; [done|]. intros Hv. by apply view_more, IHle. Qed.

Section Rendering.
Variable Number_toString : float -> string.

(** *** The nodes one row adds *)

Definition time_text (a : anno) : string :=
  toFixed1 Number_toString (anno_start a) +:+ time_separator
  +:+ toFixed1 Number_toString (anno_end a).

Definition row_el (a : anno) (k tbody : nat) : element :=
  mkElement "tr"
    ("wavesurfer-annotation-" +:+ JS.index_to_string (anno_id a))
    "" "" [] [S k; S (S k)] (Some tbody) [].

Definition time_el (a : anno) (k : nat) : element :=
  mkElement "td" "" "wavesurfer-time" (time_text a) [] [] (Some k) [].

Definition text_el (a : anno) (k : nat) : element :=
  mkElement "td" ("wavesurfer-text-" +:+ JS.index_to_string (anno_id a))
    "wavesurfer-tier-" (anno_text a)
    [("ref", JS.index_to_string (anno_id a));
     ("start", Number_toString (anno_start a));
     ("end", Number_toString (anno_end a))]
    [] (Some k) [].

Lemma render_row_run a tb t m k c r e :
  tb < k →
  render_row Number_toString a tb
    (mkState t (mkPage (mkDocument m k) c r e))
  = (Ok tt,
     mkState t
       (mkPage
          (mkDocument
             (<[S (S k) := text_el a k]>
                (<[S k := time_el a k]>
                   (<[k := row_el a k tb]>
                      (alter (append_child k) tb m))))
             (S (S (S k)))) c r e)).
Proof.
  intros Hlt. unfold render_row. do 15 step. reflexivity.
Qed.

(** The nodes after the rows of [l] were added below [tb], the first
    of them at id [k]. *)
Fixpoint rows_nodes (l : list anno) (k tb : nat) (m : gmap nat element)
    : gmap nat element :=
  match l with
  | [] => m
  | a :: l' =>
      rows_nodes l' (S (S (S k))) tb
        (<[S (S k) := text_el a k]>
           (<[S k := time_el a k]>
              (<[k := row_el a k tb]> (alter (append_child k) tb m))))
  end.

Lemma forEach_render_row l : ∀ tb t m k c r e,
  tb < k →
  forEach (λ a, render_row Number_toString a tb) l
    (mkState t (mkPage (mkDocument m k) c r e))
  = (Ok tt,
     mkState t
       (mkPage (mkDocument (rows_nodes l k tb m) (3 * length l + k))
          c r e)).
Proof.
  induction l as [|a l IH]; intros tb t m k c r e Hlt; [reflexivity|].
  cbn [forEach rows_nodes].
  erewrite bind_Ok by (apply render_row_run; exact Hlt).
  rewrite IH by lia.
  replace (3 * length (a :: l) + k) with (3 * length l + S (S (S k)))
    by (cbn [length]; lia).
  reflexivity.
Qed.

(** The ids of [n] rows, the first of them at [k]. *)
Fixpoint row_ids (k n : nat) : list nat :=
  match n with
  | O => []
  | S n' => k :: row_ids (S (S (S k))) n'
  end.

Lemma rows_nodes_old l : ∀ k tb m i,
  i < k → i ≠ tb → rows_nodes l k tb m !! i = m !! i.
Proof.
  induction l as [|a l IH]; intros k tb m i Hi Hne; [reflexivity|].
  cbn [rows_nodes]. rewrite IH by lia.
  rewrite !lookup_insert_ne by lia. by rewrite lookup_alter_ne.
Qed.

Lemma rows_nodes_tbody l : ∀ k tb m,
  tb < k →
  rows_nodes l k tb m !! tb
  = (λ e, with_children (children e ++ row_ids k (length l)) e)
      <$> m !! tb.
Proof.
  induction l as [|a l IH]; intros k tb m Hlt.
  - cbn [rows_nodes length row_ids]. destruct (m !! tb) as [[]|]; simpl;
      [|done]. by rewrite app_nil_r.
  - cbn [rows_nodes length row_ids]. rewrite IH by lia.
    rewrite !lookup_insert_ne by lia. rewrite lookup_alter_eq.
    destruct (m !! tb) as [x|]; simpl; [|done].
    unfold with_children. simpl. by rewrite <- app_assoc.
Qed.

Lemma rows_nodes_row l : ∀ k tb m j a,
  tb < k → l !! j = Some a →
  rows_nodes l k tb m !! (3 * j + k) = Some (row_el a (3 * j + k) tb)
  ∧ rows_nodes l k tb m !! S (3 * j + k) = Some (time_el a (3 * j + k))
  ∧ rows_nodes l k tb m !! S (S (3 * j + k))
    = Some (text_el a (3 * j + k)).
Proof.
  induction l as [|b l IH]; intros k tb m j a Hlt Hj; [done|].
  cbn [rows_nodes]. destruct j as [|j].
  - injection Hj as ->. replace (3 * 0 + k) with k by lia.
    repeat split; rewrite rows_nodes_old by lia; solve_lookup.
  - replace (3 * S j + k) with (3 * j + S (S (S k))) by lia.
    apply IH; [lia|done].
Qed.

Lemma row_ids_length k n : length (row_ids k n) = n.
Proof. revert k. induction n as [|n IH]; intros k; simpl; auto. Qed.

Lemma row_ids_lookup n : ∀ k j, j < n → row_ids k n !! j = Some (3 * j + k).
Proof.
  induction n as [|n IH]; intros k j Hj; [lia|].
  destruct j as [|j]; cbn [row_ids].
  - reflexivity.
  - rewrite lookup_cons. rewrite IH by lia. f_equal. lia.
Qed.

(** *** The nodes [render] builds *)

Definition table_el (k : nat) : element :=
  mkElement "table" "" "wavesurfer-annotations" "" [] [1 + k; 5 + k]
    None [].
Definition thead_el (k : nat) : element :=
  mkElement "thead" "" "" "" [] [2 + k] (Some k) [].
Definition headRow_el (k : nat) : element :=
  mkElement "tr" "" "" "" [] [3 + k; 4 + k] (Some (1 + k)) [].
Definition timeTh_el (k : nat) : element :=
  mkElement "th" "" "wavesurfer-time" "Time" [] [] (Some (2 + k)) [].
Definition textTh_el (k : nat) : element :=
  mkElement "th" "" "wavesurfer-tier-" "Text" [] [] (Some (2 + k)) [].
Definition tbody_el (k : nat) : element :=
  mkElement "tbody" "" "" "" [] [] (Some k) [].

Definition head_nodes (k : nat) (m : gmap nat element)
    : gmap nat element :=
  <[5 + k := tbody_el k]>
    (<[4 + k := textTh_el k]>
       (<[3 + k := timeTh_el k]>
          (<[2 + k := headRow_el k]>
             (<[1 + k := thead_el k]> (<[k := table_el k]> m))))).

(** The nodes after [render l], run on the nodes [m] with [k] the next
    id, for a container [cont] that was the element [ce]. *)
Definition rendered_nodes (l : list anno) (cont : nat) (ce : element)
    (k : nat) (m : gmap nat element) : gmap nat element :=
  alter (with_parent (Some cont)) k
    (alter (append_child k) cont
       (alter emptied cont
          (orphan (children ce)
             (rows_nodes l (6 + k) (5 + k) (head_nodes k m))))).

Lemma Forall_lt_not_elem (kids : list nat) k i :
  Forall (λ j, j < k) kids → k ≤ i → i ∉ kids.
Proof.
  intros Hall Hle Hin. rewrite Forall_forall in Hall.
  apply Hall in Hin. lia.
Qed.

Lemma render_run l t m k c r e ce :
  m !! container t = Some ce →
  container t < k →
  Forall (λ i, i < k) (children ce) →
  render Number_toString l (mkState t (mkPage (mkDocument m k) c r e))
  = (Ok tt,
     mkState (with_table (Some k) t)
       (mkPage
          (mkDocument (rendered_nodes l (container t) ce k m)
             (3 * length l + (6 + k))) c r e)).
Proof.
  intros Hc Hlt Hkids. unfold render.
  do 17 step.
  erewrite bind_Ok by (apply forEach_render_row; lia).
  step.
  erewrite bind_Ok by apply on_dom_run. cbv beta. rewrite on_dom_run.
  change (container (with_table (Some k) t)) with (container t).
  erewrite clear_innerHTML_run; cycle 1.
  { rewrite rows_nodes_old by lia. rewrite !lookup_insert_ne by lia.
    exact Hc. }
  erewrite appendChild_fresh; cycle 1.
  { rewrite lookup_alter_ne by lia.
    rewrite lookup_orphan_ne by (eapply Forall_lt_not_elem; [done|lia]).
    rewrite rows_nodes_old by lia. solve_lookup. }
  { reflexivity. }
  reflexivity.
Qed.

(** *** Looking nodes up after [render] *)

Section Lookups.
Variables (l : list anno) (cont : nat) (ce : element) (k : nat)
  (m : gmap nat element).
Hypothesis Hce : m !! cont = Some ce.
Hypothesis Hcont : cont < k.
Hypothesis Hkids : Forall (λ i, i < k) (children ce).
Hypothesis Hself : cont ∉ children ce.

Let F := rendered_nodes l cont ce k m.

Lemma rendered_container :
  F !! cont = Some (append_child k (emptied ce)).
Proof using All.
  unfold F, rendered_nodes.
  rewrite lookup_alter_ne by lia. rewrite !lookup_alter_eq.
  rewrite lookup_orphan_ne by done.
  rewrite rows_nodes_old by lia. unfold head_nodes.
  rewrite !lookup_insert_ne by lia. rewrite Hce. reflexivity.
Qed.

Lemma rendered_new i :
  k < i → F !! i = rows_nodes l (6 + k) (5 + k) (head_nodes k m) !! i.
Proof using All.
  intros Hi. unfold F, rendered_nodes.
  rewrite !lookup_alter_ne by lia.
  by rewrite lookup_orphan_ne by (eapply Forall_lt_not_elem; [done|lia]).
Qed.

Lemma rendered_table :
  F !! k = Some (with_parent (Some cont) (table_el k)).
Proof using All.
  unfold F, rendered_nodes.
  rewrite lookup_alter_eq. rewrite !lookup_alter_ne by lia.
  rewrite lookup_orphan_ne by (eapply Forall_lt_not_elem; [done|lia]).
  rewrite rows_nodes_old by lia. unfold head_nodes.
  rewrite !lookup_insert_ne by lia. rewrite lookup_insert_eq.
  reflexivity.
Qed.

Lemma rendered_thead : F !! (1 + k) = Some (thead_el k).
Proof using All.
  rewrite rendered_new by lia. rewrite rows_nodes_old by lia.
  unfold head_nodes. solve_lookup.
Qed.

Lemma rendered_headRow : F !! (2 + k) = Some (headRow_el k).
Proof using All.
  rewrite rendered_new by lia. rewrite rows_nodes_old by lia.
  unfold head_nodes. solve_lookup.
Qed.

Lemma rendered_timeTh : F !! (3 + k) = Some (timeTh_el k).
Proof using All.
  rewrite rendered_new by lia. rewrite rows_nodes_old by lia.
  unfold head_nodes. solve_lookup.
Qed.

Lemma rendered_textTh : F !! (4 + k) = Some (textTh_el k).
Proof using All.
  rewrite rendered_new by lia. rewrite rows_nodes_old by lia.
  unfold head_nodes. solve_lookup.
Qed.

Lemma rendered_tbody :
  F !! (5 + k)
  = Some (with_children (row_ids (6 + k) (length l)) (tbody_el k)).
Proof using All.
  rewrite rendered_new by lia. rewrite rows_nodes_tbody by lia.
  unfold head_nodes. rewrite lookup_insert_eq. reflexivity.
Qed.

Lemma rendered_row j a :
  l !! j = Some a →
  F !! (3 * j + (6 + k)) = Some (row_el a (3 * j + (6 + k)) (5 + k))
  ∧ F !! S (3 * j + (6 + k)) = Some (time_el a (3 * j + (6 + k)))
  ∧ F !! S (S (3 * j + (6 + k))) = Some (text_el a (3 * j + (6 + k))).
Proof using All.
  intros Hj. rewrite !rendered_new by lia.
  apply rows_nodes_row; [lia|done].
Qed.
End Lookups.

(** *** The markup [render] produces *)

Definition row_markup (a : anno) : markup :=
  Markup "tr"
    ("wavesurfer-annotation-" +:+ JS.index_to_string (anno_id a)) "" "" []
    [Markup "td" "" "wavesurfer-time" (time_text a) [] [];
     Markup "td" ("wavesurfer-text-" +:+ JS.index_to_string (anno_id a))
       "wavesurfer-tier-" (anno_text a)
       [("ref", JS.index_to_string (anno_id a));
        ("start", Number_toString (anno_start a));
        ("end", Number_toString (anno_end a))] []].

Definition head_markup : markup :=
  Markup "thead" "" "" "" []
    [Markup "tr" "" "" "" []
       [Markup "th" "" "wavesurfer-time" "Time" [] [];
        Markup "th" "" "wavesurfer-tier-" "Text" [] []]].

Definition table_markup (l : list anno) : markup :=
  Markup "table" "" "wavesurfer-annotations" "" []
    [head_markup; Markup "tbody" "" "" "" [] (row_markup <$> l)].

Section Views.
Variables (l : list anno) (cont : nat) (ce : element) (k : nat)
  (m : gmap nat element).
Hypothesis Hce : m !! cont = Some ce.
Hypothesis Hcont : cont < k.
Hypothesis Hkids : Forall (λ i, i < k) (children ce).
Hypothesis Hself : cont ∉ children ce.

Let F := rendered_nodes l cont ce k m.

Lemma rendered_view_row j a :
  l !! j = Some a →
  view 2 F (3 * j + (6 + k)) = Some (row_markup a).
Proof using All.
  intros Hj.
  destruct (rendered_row l cont ce k m Hce Hcont Hkids Hself j a Hj) as (Hr & Ht & Hx).
  eapply (view_node 1 F _ (row_el a (3 * j + (6 + k)) (5 + k)));
    [exact Hr|].
  apply mapM_cons_Some;
    [exact (view_node 0 F _ _ [] Ht eq_refl)|].
  apply mapM_cons_Some;
    [exact (view_node 0 F _ _ [] Hx eq_refl)|].
  reflexivity.
Qed.

Lemma rendered_view_rows :
  mapM (view 2 F) (row_ids (6 + k) (length l)) = Some (row_markup <$> l).
Proof using All.
  apply mapM_Some. apply Forall2_same_length_lookup_2.
  - by rewrite row_ids_length, length_fmap.
  - intros j x y Hx Hy.
    assert (j < length l) as Hlt.
    { apply lookup_lt_Some in Hx. by rewrite row_ids_length in Hx. }
    rewrite row_ids_lookup in Hx by done. injection Hx as <-.
    rewrite list_lookup_fmap in Hy.
    destruct (l !! j) as [a|] eqn:Hj; [|done]. injection Hy as <-.
    by apply rendered_view_row.
Qed.

Lemma rendered_view_head : view 3 F (1 + k) = Some head_markup.
Proof using All.
  eapply (view_node 2 F _ (thead_el k));
    [by apply rendered_thead|].
  apply mapM_cons_Some; [|reflexivity].
  eapply (view_node 1 F _ (headRow_el k));
    [by apply rendered_headRow|].
  apply mapM_cons_Some;
    [exact (view_node 0 F _ _ [] (rendered_timeTh l cont ce k m Hce Hcont Hkids Hself) eq_refl)|].
  apply mapM_cons_Some;
    [exact (view_node 0 F _ _ [] (rendered_textTh l cont ce k m Hce Hcont Hkids Hself) eq_refl)|].
  reflexivity.
Qed.

Lemma rendered_view_table fuel :
  4 ≤ fuel → view fuel F k = Some (table_markup l).
Proof using All.
  intros Hf. apply (view_enough 4); [done|].
  eapply (view_node 3 F _ (with_parent (Some cont) (table_el k)));
    [by apply rendered_table|].
  apply mapM_cons_Some; [exact rendered_view_head|].
  apply mapM_cons_Some; [|reflexivity].
  eapply (view_node 2 F _
            (with_children (row_ids (6 + k) (length l)) (tbody_el k)));
    [by apply rendered_tbody|].
  exact rendered_view_rows.
Qed.

(** What the container shows once [render l] is done: its own tag
    and attributes, no text, and the table as its only child. *)
Lemma rendered_view_container fuel :
  5 ≤ fuel →
  view fuel F cont
  = Some (Markup (tagName ce) (elem_id ce) (className ce) ""
            (dataset ce) [table_markup l]).
Proof using All.
  intros Hf. apply (view_enough 5); [done|].
  eapply (view_node 4 F _ (append_child k (emptied ce)));
    [by apply rendered_container|].
  apply mapM_cons_Some; [by apply rendered_view_table|reflexivity].
Qed.
End Views.

End Rendering.

Lemma orphan_detached kids : ∀ (m : gmap nat element) i e,
  i ∈ kids → orphan kids m !! i = Some e → parentNode e = None.
Proof.
  induction kids as [|k kids IH]; intros m i e Hi; [by apply elem_of_nil in Hi|].
  cbn [orphan foldr]. destruct (decide (i = k)) as [->|Hne].
  - rewrite lookup_alter_eq.
    destruct (foldr _ m kids !! k) as [x|]; [|done].
    by intros [= <-].
  - rewrite lookup_alter_ne by done.
    apply elem_of_cons in Hi as [?|Hi]; [done|]. by apply IH.
Qed.

(** A container the plugin can render into: a node of the document
    whose id and whose children's ids were handed out before, and that
    is not its own child. *)
Definition container_ok (d : document) (cont : nat) (ce : element) : Prop :=
  nodes d !! cont = Some ce
  ∧ cont < next d
  ∧ Forall (λ i, i < next d) (children ce)
  ∧ cont ∉ children ce.

Lemma render_state ts l s ce :
  container_ok (dom (world s)) (container (this s)) ce →
  render ts l s
  = (Ok tt,
     mkState (with_table (Some (next (dom (world s)))) (this s))
       (mkPage
          (mkDocument
             (rendered_nodes ts l (container (this s)) ce
                (next (dom (world s))) (nodes (dom (world s))))
             (3 * length l + (6 + next (dom (world s)))))
          (closures (world s)) (requests (world s)) (emitted (world s)))).
Proof.
  destruct s as [t [[m k] c r e]]. intros (Hce & Hlt & Hkids & _).
  by apply render_run.
Qed.

Lemma rendered_container_ok ts l cont ce k m n :
  m !! cont = Some ce → cont < k → Forall (λ i, i < k) (children ce) →
  cont ∉ children ce → k < n →
  container_ok (mkDocument (rendered_nodes ts l cont ce k m) n) cont
    (append_child k (emptied ce)).
Proof.
  intros Hce Hlt Hkids Hself Hn. unfold container_ok. cbn [nodes next].
  split; [by apply rendered_container|]. split; [lia|].
  change (children (append_child k (emptied ce))) with [k].
  split.
  - repeat constructor. done.
  - intros ?%list_elem_of_singleton. lia.
Qed.

(** C8. [render l], on a container with any content, leaves the
    container with the new table as its only child and no text (every
    former child is detached), so that the container shows exactly the
    table built from [l]; rendering [l] a second time gives the container
    the same markup and the same listeners as rendering it once (the
    table is then a new node with the same content). *)
Theorem render_replaces_content (Number_toString : float -> string)
    (l : list anno) (s : state) (ce : element) :
  container_ok (dom (world s)) (container (this s)) ce →
  let cont := container (this s) in
  let s1 := snd (render Number_toString l s) in
  let s2 := snd (render Number_toString l s1) in
  fst (render Number_toString l s) = Ok tt
  ∧ (∃ ce1 t,
       nodes (dom (world s1)) !! cont = Some ce1
       ∧ table (this s1) = Some t
       ∧ children ce1 = [t] ∧ textContent ce1 = ""
       ∧ listeners ce1 = listeners ce
       ∧ ∀ fuel, 4 ≤ fuel →
           view fuel (nodes (dom (world s1))) t
           = Some (table_markup Number_toString l))
  ∧ (∀ i e, i ∈ children ce → nodes (dom (world s1)) !! i = Some e →
            parentNode e = None)
  ∧ (∀ fuel, 5 ≤ fuel →
       view fuel (nodes (dom (world s1))) cont
       = Some (Markup (tagName ce) (elem_id ce) (className ce) ""
                 (dataset ce) [table_markup Number_toString l]))
  ∧ (∀ fuel, 5 ≤ fuel →
       view fuel (nodes (dom (world s2))) cont
       = view fuel (nodes (dom (world s1))) cont)
  ∧ (listeners <$> nodes (dom (world s2)) !! cont
     = listeners <$> nodes (dom (world s1)) !! cont).
Proof.
  destruct s as [t [[m k] c r e]].
  cbn [this world dom nodes next container].
  intros (Hce & Hlt & Hkids & Hself).
  assert (k < 3 * length l + (6 + k)) as Hk by lia.
  destruct (rendered_container_ok Number_toString l (container t) ce k m
              _ Hce Hlt Hkids Hself Hk)
    as (Hce1 & Hlt1 & Hkids1 & Hself1).
  cbn [nodes next] in Hce1, Hlt1, Hkids1.
  rewrite (render_run Number_toString l t m k c r e ce Hce Hlt Hkids).
  cbn [fst snd].
  rewrite (render_run Number_toString l (with_table (Some k) t) _ _ c r e
             _ Hce1 Hlt1 Hkids1).
  cbn [fst snd this world dom nodes next].
  change (container (with_table (Some k) t)) with (container t).
  change (table (with_table (Some k) t)) with (Some k).
  split; [|split; [|split; [|split; [|split]]]].
  - reflexivity.
  - exists (append_child k (emptied ce)), k.
    split; [exact Hce1|]. repeat split.
    intros fuel Hf. by apply rendered_view_table.
  - intros i e' Hi. unfold rendered_nodes.
    assert (i < k) as Hi'.
    { rewrite Forall_forall in Hkids. by apply Hkids. }
    assert (i ≠ container t) as Hne by (intros ->; done).
    rewrite !lookup_alter_ne by (done || lia).
    by apply orphan_detached.
  - intros fuel Hf. by apply rendered_view_container.
  - intros fuel Hf.
    rewrite (rendered_view_container Number_toString l (container t)
               (append_child k (emptied ce)) (3 * length l + (6 + k))
               (rendered_nodes Number_toString l (container t) ce k m)
               Hce1 Hlt1 Hkids1 Hself1 fuel Hf).
    rewrite (rendered_view_container Number_toString l (container t) ce k m
               Hce Hlt Hkids Hself fuel Hf).
    reflexivity.
  - rewrite (rendered_container Number_toString l (container t)
               (append_child k (emptied ce)) (3 * length l + (6 + k))
               (rendered_nodes Number_toString l (container t) ce k m)
               Hce1 Hlt1 Hkids1 Hself1).
    rewrite Hce1. reflexivity.
Qed.

(** ** Loading *)

(** The segment the loader makes of the monologue at position [index]. *)
Definition segment (index : nat) (mono : monologue) : anno :=
  mkAnno index (mono_start mono) (mono_end mono)
    (match mono_terms mono with
     | t0 :: _ => term_text t0
     | [] => ""
     end).

Fixpoint segments (index : nat) (monos : list monologue) : list anno :=
  match monos with
  | [] => []
  | mono :: rest => segment index mono :: segments (S index) rest
  end.

Lemma segments_length monos : ∀ index,
  length (segments index monos) = length monos.
Proof. induction monos as [|m l IH]; intros i; simpl; auto. Qed.

Lemma segments_lookup monos : ∀ index j,
  segments index monos !! j = segment (index + j) <$> monos !! j.
Proof.
  induction monos as [|m l IH]; intros i j; [done|].
  destruct j as [|j]; simpl.
  - by rewrite Nat.add_0_r.
  - rewrite IH. by rewrite Nat.add_succ_r.
Qed.

(** Every monologue of the document has a first term. *)
Definition has_terms (jsondata : gecko_json) : Prop :=
  Forall (λ mono, mono_terms mono ≠ []) (monologues jsondata).

(** The callback [init] passes to [map]. *)
Definition to_anno (mono : monologue) (index : nat) : M anno :=
  match mono_terms mono with
  | t0 :: _ =>
      mret (mkAnno index (mono_start mono) (mono_end mono) (term_text t0))
  | [] => throw JS.TypeError
  end.

Lemma map_call_segments monos : ∀ index s,
  Forall (λ mono, mono_terms mono ≠ []) monos →
  map_call to_anno monos index s = (Ok (segments index monos), s).
Proof.
  induction monos as [|m l IH]; intros i s Hall; [reflexivity|].
  apply Forall_cons in Hall as [Hm Hl]. cbn [map_call segments].
  destruct (mono_terms m) as [|t0 rest] eqn:E; [done|].
  erewrite bind_Ok by (unfold to_anno; rewrite E; reflexivity).
  erewrite bind_Ok by (by apply IH).
  unfold segment. rewrite E. reflexivity.
Qed.

(** A monologue without terms makes the callback throw: nothing is
    rendered, stored or emitted. *)
Lemma map_call_no_terms monos : ∀ index s,
  Exists (λ mono, mono_terms mono = []) monos →
  map_call to_anno monos index s = (Throw JS.TypeError, s).
Proof.
  induction monos as [|m l IH]; intros i s Hex; [by apply Exists_nil in Hex|].
  cbn [map_call]. destruct (mono_terms m) as [|t0 rest] eqn:E.
  - erewrite bind_Throw; [reflexivity|]. unfold to_anno. by rewrite E.
  - apply Exists_cons in Hex as [Hm|Hl]; [congruence|].
    erewrite bind_Ok by (unfold to_anno; rewrite E; reflexivity).
    erewrite bind_Throw; [reflexivity|]. by apply IH.
Qed.

Lemma render_total ts l s :
  ∃ d',
    render ts l s
    = (Ok tt,
       mkState (with_table (Some (next (dom (world s)))) (this s))
         (mkPage d' (closures (world s)) (requests (world s))
            (emitted (world s)))).
Proof.
  destruct s as [t [[m k] c r e]]. cbn [this world dom next closures requests emitted].
  unfold render.
  do 17 step.
  erewrite bind_Ok by (apply forEach_render_row; lia).
  step.
  erewrite bind_Ok by apply on_dom_run. cbv beta. rewrite on_dom_run.
  eexists. reflexivity.
Qed.

(** The state [init]'s callback leaves, given the document [dm] that
    [render] leaves. *)
Definition loaded_state (s : state) (d : gecko_data) (annos : list anno)
    (dm : document) : state :=
  let w := world s in
  let d' := mkData (media d) annos in
  mkState
    (mkPlugin (Some d') (params (this s)) (container (this s))
       (Some (next (dom w))) (Some (closures w)))
    (mkPage (addEventListener (container (this s)) (closures w) dm)
       (S (closures w)) (requests w) (emitted w ++ [Ready d'])).

Lemma init_then_run ts jsondata s d dm :
  data (this s) = Some d →
  has_terms jsondata →
  render ts (segments 0 (monologues jsondata)) s
  = (Ok tt,
     mkState (with_table (Some (next (dom (world s)))) (this s))
       (mkPage dm (closures (world s)) (requests (world s))
          (emitted (world s)))) →
  init_then ts jsondata s
  = (Ok tt, loaded_state s d (segments 0 (monologues jsondata)) dm).
Proof.
  intros Hd Hj Hr. unfold init_then.
  change (λ mono index, match mono_terms mono with
                        | [] => throw JS.TypeError
                        | t0 :: _ => mret (mkAnno index (mono_start mono)
                                             (mono_end mono) (term_text t0))
                        end) with to_anno.
  erewrite bind_Ok by (by apply map_call_segments).
  erewrite bind_Ok by exact Hr.
  erewrite bind_Ok by apply get_this_run.
  change (data (with_table (Some (next (dom (world s)))) (this s)))
    with (data (this s)).
  rewrite Hd.
  erewrite bind_Ok by apply set_this_run.
  reflexivity.
Qed.

(** ** The segment id of a rendered cell parses back to the id *)

Lemma parse_digits_uint d : ∀ a,
  JS.parse_digits 10 (NilEmpty.string_of_uint d) (Some (Z.of_nat a))
  = Some (Z.of_nat (Nat.of_uint_acc d a)).
Proof.
  induction d; intros a; cbn [NilEmpty.string_of_uint JS.parse_digits Nat.of_uint_acc];
    [reflexivity|..];
    (change (JS.digit_value 10 _) with (Some 0%Z)
     || change (JS.digit_value 10 _) with (Some 1%Z)
     || change (JS.digit_value 10 _) with (Some 2%Z)
     || change (JS.digit_value 10 _) with (Some 3%Z)
     || change (JS.digit_value 10 _) with (Some 4%Z)
     || change (JS.digit_value 10 _) with (Some 5%Z)
     || change (JS.digit_value 10 _) with (Some 6%Z)
     || change (JS.digit_value 10 _) with (Some 7%Z)
     || change (JS.digit_value 10 _) with (Some 8%Z)
     || change (JS.digit_value 10 _) with (Some 9%Z));
    cbv iota beta; rewrite <- IHd; do 2 f_equal;
    rewrite Nat.tail_mul_spec; lia.
Qed.

Lemma trim_start_no_space a s :
  JS.is_ascii_space a = false → nat_of_ascii a < 128 →
  JS.trim_start (String a s) = String a s.
Proof.
  intros Ha Hlt. cbn [JS.trim_start]. rewrite Ha.
  assert (∀ b, JS.is_space2 a b = false) as H2.
  { intros b. unfold JS.is_space2.
    rewrite (proj2 (Nat.eqb_neq _ 194)) by lia. reflexivity. }
  assert (∀ b c, JS.is_space3 a b c = false) as H3.
  { intros b c. unfold JS.is_space3. cbv zeta.
    rewrite (proj2 (Nat.eqb_neq _ 225)), (proj2 (Nat.eqb_neq _ 226)),
      (proj2 (Nat.eqb_neq _ 227)), (proj2 (Nat.eqb_neq _ 239)) by lia.
    reflexivity. }
  destruct s as [|b [|c s3]]; [reflexivity|..]; rewrite H2; [reflexivity|].
  by rewrite H3.
Qed.

Lemma to_uint_digits n :
  ∃ c rest, NilZero.string_of_uint (Nat.to_uint n) = String c rest
    ∧ String c rest = NilEmpty.string_of_uint (Nat.to_uint n)
    ∧ JS.parseInt (String c rest)
      = match JS.parse_digits 10 (String c rest) (Some 0%Z) with
        | Some v => Some (1 * v)%Z
        | None => None
        end.
Proof.
  assert (Nat.to_uint n ≠ Decimal.Nil) as Hn.
  { intros E. pose proof (Unsigned.of_to n) as H. rewrite E in H.
    cbn in H. subst n. discriminate E. }
  destruct (Nat.to_uint n) as [|d|d|d|d|d|d|d|d|d|d]; [done|..];
    (eexists _, _; split; [reflexivity|]; split; [reflexivity|];
     unfold JS.parseInt;
     rewrite trim_start_no_space by (vm_compute; (reflexivity || lia));
     destruct d; reflexivity).
Qed.

Lemma parseInt_index n :
  JS.parseInt (JS.index_to_string n) = Some (Z.of_nat n).
Proof.
  unfold JS.index_to_string.
  destruct (to_uint_digits n) as (c & rest & -> & E & ->).
  rewrite E, (parse_digits_uint _ 0).
  change (Nat.of_uint_acc (Nat.to_uint n) 0) with (Nat.of_uint (Nat.to_uint n)).
  rewrite Unsigned.of_to. f_equal. lia.
Qed.

(** From here on [render] and the callback of [init] are used through
    the lemmas above only. *)
#[global] Opaque render init_then.

(** ** From construction to the loaded table *)

Lemma init_url s u :
  truthy (param_url (params (this s))) = Some u →
  init s
  = (Ok tt,
     mkState (with_data (Some (mkData tt [])) (this s))
       (mkPage (dom (world s)) (closures (world s))
          (requests (world s) ++ [u]) (emitted (world s)))).
Proof. unfold init. run_M. intros ->. reflexivity. Qed.

(** The state in which the callback of [init] starts when the page
    answers the oldest fetch. *)
Definition answered (t : GeckoPlugin) (w : page) (u : string) : state :=
  mkState (with_data (Some (mkData tt [])) t)
    (mkPage (dom w) (closures w) (tail (requests w ++ [u])) (emitted w)).

Lemma run_init_respond ts jsondata t w u dm :
  truthy (param_url (params t)) = Some u →
  has_terms jsondata →
  render ts (segments 0 (monologues jsondata)) (answered t w u)
  = (Ok tt,
     mkState (with_table (Some (next (dom w)))
                (with_data (Some (mkData tt [])) t))
       (mkPage dm (closures w) (tail (requests w ++ [u])) (emitted w))) →
  run ts (mkState t w) [CallInit; Respond jsondata]
  = loaded_state (answered t w u) (mkData tt [])
      (segments 0 (monologues jsondata)) dm.
Proof.
  intros Hu Hj Hr. unfold run. cbn [foldl step].
  rewrite (init_url (mkState t w) u Hu). cbn [snd this world dom closures requests emitted].
  unfold respond. cbn [this world dom closures requests emitted].
  destruct (requests w ++ [u]) as [|r0 rest] eqn:E.
  { apply app_eq_nil in E as [_ E]. discriminate E. }
  unfold answered in *. rewrite E in *. cbn [tail] in *.
  exact (f_equal snd
           (init_then_run ts jsondata
              (mkState (with_data (Some (mkData tt [])) t)
                 (mkPage (dom w) (closures w) rest (emitted w)))
              (mkData tt []) dm eq_refl Hj Hr)).
Qed.

(** An update of one element that keeps what [view] reads. *)
Lemma view_alter g fuel : ∀ (m : gmap nat element) c n,
  (∀ e, g e = with_listeners (listeners (g e)) e) →
  view fuel (alter g c m) n = view fuel m n.
Proof.
  induction fuel as [|fuel IH]; intros m c n Hg; [reflexivity|].
  cbn [view]. rewrite lookup_alter.
  destruct (decide (c = n)) as [->|]; (destruct (m !! n) as [e|]; [|reflexivity]);
    cbn [fmap option_fmap option_map mbind option_bind].
  - rewrite (Hg e). cbn [tagName elem_id className textContent dataset
                         children with_listeners].
    by rewrite (mapM_ext _ _ _ (λ x, IH m n x Hg)).
  - by rewrite (mapM_ext _ _ _ (λ x, IH m c x Hg)).
Qed.

Section Lifecycle.
Variable Number_toString : float -> string.
Variables (t : GeckoPlugin) (w : page) (u : string) (ce : element).
Variable jsondata : gecko_json.

Hypothesis Hurl : truthy (param_url (params t)) = Some u.
Hypothesis Hjson : has_terms jsondata.
Hypothesis Hcont : container_ok (dom w) (container t) ce.

Let annos := segments 0 (monologues jsondata).
Let k := next (dom w).
Let cont := container t.
Let f := closures w.
Let F := rendered_nodes Number_toString annos cont ce k (nodes (dom w)).

(** The container once the handler is bound. *)
Definition bound (f : nat) (e : element) : element :=
  if decide (f ∈ listeners e) then e
  else with_listeners (listeners e ++ [f]) e.

Definition loaded : state :=
  mkState
    (mkPlugin (Some (mkData tt annos)) (params t) cont (Some k) (Some f))
    (mkPage (mkDocument (alter (bound f) cont F) (3 * length annos + (6 + k)))
       (S f) (tail (requests w ++ [u]))
       (emitted w ++ [Ready (mkData tt annos)])).

Lemma run_loaded :
  run Number_toString (mkState t w) [CallInit; Respond jsondata] = loaded.
Proof using Hurl Hjson Hcont.
  erewrite run_init_respond; [|exact Hurl|exact Hjson|].
  2:{ rewrite (render_state Number_toString _ (answered t w u) ce)
        by exact Hcont. reflexivity. }
  reflexivity.
Qed.

Lemma loaded_container :
  nodes (dom (world loaded)) !! cont
  = Some (bound f (append_child k (emptied ce))).
Proof using Hcont.
  destruct Hcont as (Hce & Hlt & Hkids & Hself).
  cbn [loaded world dom nodes]. rewrite lookup_alter_eq.
  unfold F. by rewrite rendered_container.
Qed.

Lemma loaded_other i :
  i ≠ cont → nodes (dom (world loaded)) !! i = F !! i.
Proof using Type.
  intros Hi. cbn [loaded world dom nodes]. by rewrite lookup_alter_ne.
Qed.

Lemma loaded_view_table fuel :
  4 ≤ fuel →
  view fuel (nodes (dom (world loaded))) k
  = Some (table_markup Number_toString annos).
Proof using Hcont.
  destruct Hcont as (Hce & Hlt & Hkids & Hself). intros Hf.
  cbn [loaded world dom nodes]. rewrite view_alter.
  - by apply rendered_view_table.
  - intros []. unfold bound. by destruct (decide _).
Qed.
End Lifecycle.

(** C4. Once the page answers the fetch of [init] with a document whose
    monologues all have a first term, the plugin's data holds one segment
    per monologue, in order: the segment at position [i] has id [i], the
    start and end of the monologue at position [i] and the text of its
    first term; the terms after the first do not appear in it. *)
Theorem loader_maps_monologues (Number_toString : float -> string)
    (querySelector : string -> JS.exn + option nat)
    (params : GeckoPluginParams) (w w' : page) (t : GeckoPlugin)
    (u : string) (jsondata : gecko_json) :
  constructor querySelector params w = (Ok t, w') →
  truthy (param_url params) = Some u →
  has_terms jsondata →
  let s := run Number_toString (mkState t w') [CallInit; Respond jsondata] in
  ∃ d,
    data (this s) = Some d
    ∧ length (annotations d) = length (monologues jsondata)
    ∧ ∀ i mono,
        monologues jsondata !! i = Some mono →
        ∃ t0 rest,
          mono_terms mono = t0 :: rest
          ∧ annotations d !! i
            = Some (mkAnno i (mono_start mono) (mono_end mono)
                      (term_text t0)).
Proof.
  intros Hc Hu Hj s.
  apply constructor_fields in Hc as (-> & Hd & Ht & Ho & Hp & _).
  destruct (render_total Number_toString (segments 0 (monologues jsondata))
              (answered t w u)) as [dm Hr].
  assert (s = loaded_state (answered t w u) (mkData tt [])
                (segments 0 (monologues jsondata)) dm) as ->.
  { unfold s. apply run_init_respond; [|exact Hj|exact Hr].
    rewrite Hp. exact Hu. }
  clear Hr.
  exists (mkData tt (segments 0 (monologues jsondata))).
  split; [reflexivity|]. split; [apply segments_length|].
  intros i mono Hi. cbn [annotations].
  rewrite segments_lookup, Hi. cbn [fmap option_fmap option_map].
  unfold has_terms in Hj. rewrite Forall_forall in Hj.
  assert (mono_terms mono ≠ []) as Hm.
  { apply Hj. by eapply list_elem_of_lookup_2. }
  unfold segment. destruct (mono_terms mono) as [|t0 rest]; [done|].
  by exists t0, rest.
Qed.

Definition example_json : gecko_json :=
  mkJson [mkMono 0%float 1.25%float [mkTerm "hi"];
          mkMono 1.25%float 3%float [mkTerm "bye"; mkTerm "for now"]].

Lemma loader_maps_monologues_witness :
  data (this (run (λ _, "") (mkState example_plugin example_page)
                [CallInit; Respond example_json]))
  = Some (mkData tt example_annotations).
Proof.
  assert (has_terms example_json) as Hj by (repeat constructor; done).
  destruct (loader_maps_monologues (λ _, "") example_querySelector
              example_params example_page example_page example_plugin
              "t.json" example_json eq_refl eq_refl Hj)
    as (d & Hd & _ & _).
  rewrite Hd. vm_compute in Hd. symmetry. exact Hd.
Defined.

(** ** The rows of the loaded table *)

Lemma append_cancel_l (a x y : string) : a +:+ x = a +:+ y → x = y.
Proof. induction a as [|c a IH]; simpl; [done|]. intros [= H]. by apply IH. Qed.

(** The time cell never has the en dash between the two times. *)
Lemma time_text_not_en_dash ts a :
  time_text ts a
  ≠ toFixed1 ts (anno_start a) +:+ en_dash +:+ toFixed1 ts (anno_end a).
Proof.
  unfold time_text. intros H%append_cancel_l. discriminate H.
Qed.

(** C2. For the document
    [{monologues: [{start: 0, end: 1.25, terms: [{text: "hi"}]},
                   {start: 1.25, end: 3, terms: [{text: "bye"}, ...]}]}]
    the loaded table has the header row ("Time", "Text") and two body
    rows, with the first term's text in the text cells, but the time
    cells read "0.0â€“1.3" and "1.3â€“3.0": the separator is the three
    characters U+00E2 U+20AC U+201C of the source file, not the en dash.
    No time cell of any table is its two times joined by an en dash. *)
Theorem render_example_time_cells (Number_toString : float -> string) :
  let s := run Number_toString (mkState example_plugin example_page)
             [CallInit; Respond example_json] in
  view 4 (nodes (dom (world s))) 1
  = Some
      (Markup "table" "" "wavesurfer-annotations" "" []
         [Markup "thead" "" "" "" []
            [Markup "tr" "" "" "" []
               [Markup "th" "" "wavesurfer-time" "Time" [] [];
                Markup "th" "" "wavesurfer-tier-" "Text" [] []]];
          Markup "tbody" "" "" "" []
            [Markup "tr" "wavesurfer-annotation-0" "" "" []
               [Markup "td" "" "wavesurfer-time" "0.0â€“1.3" [] [];
                Markup "td" "wavesurfer-text-0" "wavesurfer-tier-" "hi"
                  [("ref", "0"); ("start", Number_toString 0%float);
                   ("end", Number_toString 1.25%float)] []];
             Markup "tr" "wavesurfer-annotation-1" "" "" []
               [Markup "td" "" "wavesurfer-time" "1.3â€“3.0" [] [];
                Markup "td" "wavesurfer-text-1" "wavesurfer-tier-" "bye"
                  [("ref", "1"); ("start", Number_toString 1.25%float);
                   ("end", Number_toString 3%float)] []]]])
  ∧ "0.0â€“1.3" ≠ "0.0" +:+ en_dash +:+ "1.3"
  ∧ "1.3â€“3.0" ≠ "1.3" +:+ en_dash +:+ "3.0"
  ∧ ∀ a : anno,
      time_text Number_toString a
      ≠ toFixed1 Number_toString (anno_start a) +:+ en_dash
        +:+ toFixed1 Number_toString (anno_end a).
Proof.
  split; [vm_compute; reflexivity|].
  split; [intros H; vm_compute in H; discriminate H|].
  split; [intros H; vm_compute in H; discriminate H|].
  apply time_text_not_en_dash.
Qed.

(** The separator and the en dash, byte by byte (UTF-8). *)
Lemma time_separator_bytes :
  time_separator
  = String (ascii_of_nat 195) (String (ascii_of_nat 162)
      (String (ascii_of_nat 226) (String (ascii_of_nat 130)
         (String (ascii_of_nat 172) (String (ascii_of_nat 226)
            (String (ascii_of_nat 128) (String (ascii_of_nat 156) ""))))))).
Proof. reflexivity. Qed.

Lemma en_dash_bytes :
  en_dash
  = String (ascii_of_nat 226) (String (ascii_of_nat 128)
      (String (ascii_of_nat 147) "")).
Proof. reflexivity. Qed.

(** ** Clicking *)

Lemma clicked_annotation_emit n s target :
  clicked_annotation (emit n s) target = clicked_annotation s target.
Proof. reflexivity. Qed.

Lemma click_unresolved s target :
  clicked_annotation s target = None → click target s = s.
Proof.
  intros Hnone. unfold click.
  destruct (nodes (dom (world s)) !! container (this s)) as [ce|];
    [|reflexivity].
  induction (listeners ce) as [|f l IH]; [reflexivity|].
  cbn [foldl]. rewrite onClick_spec, Hnone. exact IH.
Qed.





Definition example_loaded : state :=
  run (λ _, "") (mkState example_plugin example_page)
    [CallInit; Respond example_json].


(** *** Clicking the cells of the loaded table *)

Section LoadedClicks.
Variable Number_toString : float -> string.
Variables (t : GeckoPlugin) (w : page) (u : string) (ce : element).
Variable jsondata : gecko_json.

Hypothesis Hcont : container_ok (dom w) (container t) ce.
Hypothesis Hquiet : listeners ce = [].

Let s := loaded Number_toString t w u ce jsondata.
Let k := next (dom w).

Lemma loaded_listeners :
  ∃ ce', nodes (dom (world s)) !! container (this s) = Some ce'
         ∧ listeners ce' = [closures w] ∧ children ce' = [k].
Proof using All.
  exists (bound (closures w) (append_child k (emptied ce))). split.
  - exact (loaded_container Number_toString t w u ce jsondata Hcont).
  - unfold bound. cbn [listeners append_child emptied with_children with_text].
    rewrite Hquiet. destruct (decide _) as [Hin|_].
    + by apply elem_of_nil in Hin.
    + split; reflexivity.
Qed.

(** The text cell of row [j] selects the monologue at position [j]. *)
Lemma click_text_cell j mono :
  monologues jsondata !! j = Some mono →
  click (S (S (3 * j + (6 + k)))) s
  = emit (Select (mono_start mono) (mono_end mono)) s.
Proof using All.
  intros Hj. destruct loaded_listeners as (ce' & Hce' & Hl & _).
  rewrite (click_one_listener s _ ce' _ Hce' Hl), onClick_spec.
  assert (segments 0 (monologues jsondata) !! j = Some (segment j mono))
    as Ha by (by rewrite segments_lookup, Hj).
  destruct Hcont as (Hce & Hlt & Hkids & Hself).
  assert (clicked_annotation s (S (S (3 * j + (6 + k))))
          = Some (segment j mono)) as ->; [|reflexivity].
  unfold clicked_annotation. subst s k.
  rewrite loaded_other by lia.
  destruct (rendered_row Number_toString _ (container t) ce _ _
              Hce Hlt Hkids Hself j _ Ha) as (_ & _ & ->).
  cbn [mbind option_bind text_el dataset data_get segment anno_id].
  rewrite decide_True by reflexivity.
  cbn [mbind option_bind loaded this data annotations].
  rewrite parseInt_index. unfold JS.array_get.
  rewrite (proj2 (Z.leb_le 0 (Z.of_nat j))) by lia.
  by rewrite Nat2Z.id.
Qed.

(** The time cell of a row carries no segment id: a click on it does
    nothing. *)
Lemma click_time_cell j mono :
  monologues jsondata !! j = Some mono →
  click (S (3 * j + (6 + k))) s = s.
Proof using All.
  intros Hj. destruct loaded_listeners as (ce' & Hce' & Hl & _).
  rewrite (click_one_listener s _ ce' _ Hce' Hl), onClick_spec.
  assert (segments 0 (monologues jsondata) !! j = Some (segment j mono))
    as Ha by (by rewrite segments_lookup, Hj).
  destruct Hcont as (Hce & Hlt & Hkids & Hself).
  assert (clicked_annotation s (S (3 * j + (6 + k))) = None) as ->;
    [|reflexivity].
  unfold clicked_annotation. subst s k.
  rewrite loaded_other by lia.
  destruct (rendered_row Number_toString _ (container t) ce _ _
              Hce Hlt Hkids Hself j _ Ha) as (_ & -> & _).
  reflexivity.
Qed.
End LoadedClicks.

(** ** Teardown *)

Lemma remove_id_self x : remove_id x [x] = [].
Proof.
  unfold remove_id. rewrite filter_cons. destruct (decide (x ≠ x)); done.
Qed.

Lemma destroy_run s :
  destroy s
  = match removeChild (container (this s)) (table (this s))
            (removeEventListener (container (this s)) (_onClick (this s))
               (dom (world s))) with
    | inr d =>
        (Ok tt,
         mkState (this s)
           (mkPage d (closures (world s)) (requests (world s))
              (emitted (world s))))
    | inl e =>
        (Throw e,
         mkState (this s)
           (mkPage
              (removeEventListener (container (this s)) (_onClick (this s))
                 (dom (world s)))
              (closures (world s)) (requests (world s)) (emitted (world s))))
    end.
Proof.
  destruct s as [t [d c r e]]. unfold destroy.
  erewrite bind_Ok by apply get_this_run.
  erewrite bind_Ok by apply on_dom_run.
  unfold try_dom. cbn [this world dom closures requests emitted].
  destruct (removeChild _ _ _); reflexivity.
Qed.

(** The container has no click listener left. *)
Definition silent (d : document) (cont : nat) : Prop :=
  ∃ ce, nodes d !! cont = Some ce ∧ listeners ce = [].

Lemma alter_listeners g (m : gmap nat element) i j :
  (∀ e, listeners (g e) = listeners e) →
  listeners <$> alter g i m !! j = listeners <$> m !! j.
Proof.
  intros Hg. rewrite lookup_alter. destruct (decide (i = j)) as [->|]; [|done].
  destruct (m !! j) as [x|]; [|done]. simpl. by rewrite Hg.
Qed.

Lemma removeChild_listeners p c d d' j :
  removeChild p c d = inr d' →
  listeners <$> nodes d' !! j = listeners <$> nodes d !! j.
Proof.
  unfold removeChild. destruct c as [c|]; [|done].
  destruct (nodes d !! c) as [ce|]; [|done].
  destruct (decide _); [|done]. intros [= <-].
  unfold with_nodes. cbn [nodes].
  rewrite alter_listeners by done. by rewrite alter_listeners.
Qed.

Lemma removeEventListener_silent cont o d :
  silent d cont → silent (removeEventListener cont o d) cont.
Proof.
  intros (ce & Hce & Hl). destruct o as [c|]; [|by exists ce].
  unfold removeEventListener, with_nodes, silent. cbn [nodes].
  rewrite lookup_alter_eq, Hce. eexists. split; [reflexivity|].
  cbn [listeners with_listeners]. by rewrite Hl.
Qed.

Lemma removeChild_silent cont p c d d' :
  removeChild p c d = inr d' → silent d cont → silent d' cont.
Proof.
  intros Hr (ce & Hce & Hl).
  pose proof (removeChild_listeners p c d d' cont Hr) as H.
  rewrite Hce in H. unfold silent.
  destruct (nodes d' !! cont) as [ce'|]; [|done].
  exists ce'. split; [done|]. injection H as ->. done.
Qed.

(** After teardown: nothing in flight, no listener on the container. *)
Definition torn_down (s : state) : Prop :=
  requests (world s) = [] ∧ silent (dom (world s)) (container (this s)).

Lemma torn_down_step ts s a :
  a ≠ CallInit → torn_down s →
  torn_down (step ts s a)
  ∧ emitted (world (step ts s a)) = emitted (world s).
Proof.
  intros Ha [Hr Hs]. destruct a; cbn [step]; [done|..].
  - rewrite destroy_run.
    pose proof (removeEventListener_silent _ (_onClick (this s)) _ Hs) as Hs1.
    destruct (removeChild _ _ _) as [e|d'] eqn:E; cbn [snd]; split;
      try reflexivity; split; cbn [world this requests dom]; try exact Hr.
    + exact Hs1.
    + by eapply removeChild_silent.
  - by rewrite getRenderedAnnotation_state.
  - unfold respond. by rewrite Hr.
  - unfold fail_request. cbn [world emitted]. split; [|reflexivity].
    split; cbn [world this requests dom]; [by rewrite Hr|exact Hs].
  - destruct Hs as (ce & Hce & Hl).
    rewrite (click_no_listener s target ce Hce Hl). split; [|reflexivity].
    split; [exact Hr|by exists ce].
Qed.

Lemma torn_down_run ts l : ∀ s,
  Forall (λ a, a ≠ CallInit) l → torn_down s →
  emitted (world (run ts s l)) = emitted (world s).
Proof.
  induction l as [|a l IH]; intros s Hl Hs; [reflexivity|].
  apply Forall_cons in Hl as [Ha Hl]. unfold run. cbn [foldl].
  destruct (torn_down_step ts s a Ha Hs) as [Hs' He].
  fold (run ts (step ts s a) l). rewrite IH by done. exact He.
Qed.

(** Clicks and time queries: what a loaded plugin sees before teardown. *)
Definition is_interaction (a : action) : Prop :=
  match a with
  | Click _ | CallGetRenderedAnnotation _ => True
  | _ => False
  end.

Lemma click_keeps s target :
  this (click target s) = this s
  ∧ dom (world (click target s)) = dom (world s)
  ∧ requests (world (click target s)) = requests (world s).
Proof.
  unfold click.
  destruct (nodes (dom (world s)) !! container (this s)) as [ce|]; [|done].
  generalize (listeners ce). intros l. revert s.
  induction l as [|f l IH]; intros s; [done|]. cbn [foldl].
  destruct (IH (snd (onClick target s))) as (-> & -> & ->).
  rewrite onClick_spec. by destruct (clicked_annotation s target).
Qed.

Lemma interactions_keep ts l : ∀ s,
  Forall is_interaction l →
  this (run ts s l) = this s
  ∧ dom (world (run ts s l)) = dom (world s)
  ∧ requests (world (run ts s l)) = requests (world s).
Proof.
  induction l as [|a l IH]; intros s Hl; [done|].
  apply Forall_cons in Hl as [Ha Hl]. unfold run. cbn [foldl].
  fold (run ts (step ts s a) l).
  destruct (IH (step ts s a) Hl) as (-> & -> & ->).
  destruct a; try done; cbn [step].
  - by rewrite getRenderedAnnotation_state.
  - apply click_keeps.
Qed.

Section LoadedTeardown.
Variable Number_toString : float -> string.
Variables (t : GeckoPlugin) (w : page) (u : string) (ce : element).
Variable jsondata : gecko_json.
Variable s : state.

Hypothesis Hcont : container_ok (dom w) (container t) ce.
Hypothesis Hquiet : listeners ce = [].
Hypothesis Hthis : this s = this (loaded Number_toString t w u ce jsondata).
Hypothesis Hdom :
  dom (world s) = dom (world (loaded Number_toString t w u ce jsondata)).

(** [destroy] on a state that has the plugin fields and the document of
    the loaded state. *)
Lemma destroy_loaded :
  ∃ d',
    destroy s
    = (Ok tt,
       mkState (this s)
         (mkPage d' (closures (world s)) (requests (world s))
            (emitted (world s))))
    ∧ (∃ ce', nodes d' !! container t = Some ce'
              ∧ listeners ce' = [] ∧ children ce' = [])
    ∧ (∃ te, nodes d' !! next (dom w) = Some te ∧ parentNode te = None).
Proof using All.
  destruct Hcont as (Hce & Hlt & Hkids & Hself).
  set (k := next (dom w)) in *. set (cont := container t) in *.
  set (f := closures w).
  set (F := rendered_nodes Number_toString
              (segments 0 (monologues jsondata)) cont ce k (nodes (dom w))).
  set (unlisten := λ e, with_listeners (remove_id f (listeners e)) e).
  set (unchild := λ e, with_children (remove_id k (children e)) e).
  set (n := 3 * length (segments 0 (monologues jsondata)) + (6 + k)).
  assert (F !! cont = Some (append_child k (emptied ce))) as HFc
    by (by apply rendered_container).
  assert (F !! k = Some (with_parent (Some cont) (table_el k))) as HFk
    by (by apply rendered_table).
  exists (mkDocument
            (alter (with_parent None) k
               (alter unchild cont
                  (alter unlisten cont (alter (bound f) cont F)))) n).
  split; [|split].
  - rewrite destroy_run, Hthis, Hdom.
    cbn [loaded this world dom container table _onClick].
    fold k cont f F n.
    unfold removeEventListener, with_nodes. cbn [nodes next].
    fold unlisten. unfold removeChild. cbn [nodes next].
    rewrite !lookup_alter_ne by lia. rewrite HFk.
    cbn [parentNode with_parent]. rewrite decide_True by reflexivity.
    reflexivity.
  - cbn [nodes]. rewrite lookup_alter_ne by lia.
    rewrite !lookup_alter_eq, HFc.
    cbn [fmap option_fmap option_map]. eexists. split; [reflexivity|].
    unfold unchild, unlisten, bound.
    cbn [listeners children append_child emptied with_children with_text
         with_listeners].
    rewrite Hquiet. destruct (decide (f ∈ [])) as [Hin|_].
    { by apply elem_of_nil in Hin. }
    cbn [listeners children with_listeners app].
    split; apply remove_id_self.
  - cbn [nodes]. rewrite lookup_alter_eq. rewrite !lookup_alter_ne by lia.
    rewrite HFk. eexists. split; reflexivity.
Qed.
End LoadedTeardown.

(** Teardown after a single load.  A plugin is constructed and
    initialised with a url on a page where its container has no listener
    of the plugin and none of its fetches is in flight; the page answers
    with a document whose monologues have terms; clicks and time queries
    may follow, [init] is not called again.  Then the container has the
    handler as its one listener and the table as its one child,
    [destroy] returns, and afterwards the container has no listener and
    no child, the table node has no parent, and no notification is
    emitted any more, whatever is clicked (nodes of the removed table
    included), answered, queried or destroyed again, as long as [init]
    is not called again. *)
Theorem destroy_removes_listener_and_table
    (Number_toString : float -> string)
    (querySelector : string -> JS.exn + option nat)
    (params : GeckoPluginParams) (w w' : page) (t : GeckoPlugin)
    (u : string) (jsondata : gecko_json) (ce : element)
    (before later : list action) :
  constructor querySelector params w = (Ok t, w') →
  truthy (param_url params) = Some u →
  has_terms jsondata →
  container_ok (dom w) (container t) ce →
  listeners ce = [] →
  requests w = [] →
  Forall is_interaction before →
  Forall (λ a, a ≠ CallInit) later →
  let s := run Number_toString (mkState t w')
             (CallInit :: Respond jsondata :: before) in
  let s' := snd (destroy s) in
  (∃ tb f ce0,
     table (this s) = Some tb ∧ _onClick (this s) = Some f
     ∧ nodes (dom (world s)) !! container t = Some ce0
     ∧ listeners ce0 = [f] ∧ children ce0 = [tb]
     ∧ ∃ ce1 te,
         nodes (dom (world s')) !! container t = Some ce1
         ∧ listeners ce1 = [] ∧ children ce1 = []
         ∧ nodes (dom (world s')) !! tb = Some te ∧ parentNode te = None)
  ∧ fst (destroy s) = Ok tt
  ∧ emitted (world (run Number_toString s' later)) = emitted (world s').
Proof.
  intros Hc Hu Hj Hcont Hquiet Hreq Hbefore Hlater s s'.
  apply constructor_fields in Hc as (-> & _ & _ & _ & Hp & _).
  rewrite <- Hp in Hu.
  pose proof (run_loaded Number_toString t w u ce jsondata Hu Hj Hcont) as HL.
  assert (s = run Number_toString
                (loaded Number_toString t w u ce jsondata) before) as Hs.
  { rewrite <- HL. reflexivity. }
  destruct (interactions_keep Number_toString before
              (loaded Number_toString t w u ce jsondata) Hbefore)
    as (Hthis & Hdom & Hrq).
  rewrite <- Hs in Hthis, Hdom, Hrq. clear Hs HL.
  destruct (destroy_loaded Number_toString t w u ce jsondata s Hcont Hquiet
              Hthis Hdom) as (d' & Hd & Hc1 & Hk1).
  destruct (loaded_listeners Number_toString t w u ce jsondata Hcont Hquiet)
    as (ce0 & Hce0 & Hl0 & Hch0).
  assert (s' = mkState (this s)
                 (mkPage d' (closures (world s)) (requests (world s))
                    (emitted (world s)))) as Hs'.
  { unfold s'. rewrite Hd. reflexivity. }
  split; [|split].
  - exists (next (dom w)), (closures w), ce0.
    rewrite Hthis, Hdom. split; [reflexivity|]. split; [reflexivity|].
    split; [exact Hce0|]. split; [exact Hl0|]. split; [exact Hch0|].
    destruct Hc1 as (ce1 & Hce1 & Hl1 & Hch1).
    destruct Hk1 as (te & Hte & Hpar).
    exists ce1, te. rewrite Hs'. cbn [world dom]. auto.
  - rewrite Hd. reflexivity.
  - apply torn_down_run; [exact Hlater|].
    rewrite Hs'. split; cbn [world this requests dom].
    + rewrite Hrq. cbn [loaded world requests]. rewrite Hreq. reflexivity.
    + rewrite Hthis. cbn [loaded this container].
      destruct Hc1 as (ce1 & Hce1 & Hl1 & _). by exists ce1.
Qed.

Lemma destroy_removes_listener_and_table_witness :
  let s := run (λ _, "") (mkState example_plugin example_page)
             [CallInit; Respond example_json; Click 9] in
  let s' := snd (destroy s) in
  fst (destroy s) = Ok tt
  ∧ emitted (world (run (λ _, "") s'
                      [Click 9; Click 12; CallDestroy; Respond example_json]))
    = emitted (world s').
Proof.
  assert (has_terms example_json) as Hj by (repeat constructor; discriminate).
  assert (container_ok (dom example_page) (container example_plugin)
            (mkElement "div" "annotations" "" "" [] [] None [])) as Hok.
  { split; [reflexivity|]. split; [cbn; lia|].
    split; [constructor|]. apply not_elem_of_nil. }
  assert (Forall is_interaction [Click 9]) as Hb by (repeat constructor).
  assert (Forall (λ a, a ≠ CallInit)
            [Click 9; Click 12; CallDestroy; Respond example_json]) as Hl
    by (repeat constructor; discriminate).
  destruct (destroy_removes_listener_and_table (λ _, "")
              example_querySelector example_params example_page example_page
              example_plugin "t.json" example_json _ [Click 9] _
              eq_refl eq_refl Hj Hok eq_refl eq_refl Hb Hl) as (_ & H1 & H2).
  exact (conj H1 H2).
Defined.

(** C6. Teardown after [init] was called a second time, on the page
    with the container [0] and the document of two monologues.
    - Both loads were answered: [destroy] returns and removes the table
      and the handler of the second load, but the handler of the first
      load is still a listener of the container.
    - The second load is still in flight: [destroy] returns and leaves
      the container without listener and child; the answer that arrives
      afterwards renders a new table into the container and binds a new
      handler, and a click on the text cell of its second row (the node
      [24], below the body [18] of the table [13] of the container)
      emits "select" with the times 1.25 and 3. *)
Theorem destroy_after_second_init :
  let start := mkState example_plugin example_page in
  let reloaded :=
    run (λ _, "") start
      [CallInit; Respond example_json; CallInit; Respond example_json] in
  let reloading :=
    run (λ _, "") start [CallInit; Respond example_json; CallInit] in
  let late :=
    run (λ _, "") start
      [CallInit; Respond example_json; CallInit; CallDestroy;
       Respond example_json] in
  (fst (destroy reloaded) = Ok tt
   ∧ listeners <$> nodes (dom (world (snd (destroy reloaded)))) !! 0
     = Some [0]
   ∧ children <$> nodes (dom (world (snd (destroy reloaded)))) !! 0
     = Some [])
  ∧ (fst (destroy reloading) = Ok tt
     ∧ listeners <$> nodes (dom (world (snd (destroy reloading)))) !! 0
       = Some []
     ∧ children <$> nodes (dom (world (snd (destroy reloading)))) !! 0
       = Some []
     ∧ listeners <$> nodes (dom (world late)) !! 0 = Some [1]
     ∧ children <$> nodes (dom (world late)) !! 0 = Some [13]
     ∧ parentNode <$> nodes (dom (world late)) !! 24 = Some (Some 22)
     ∧ parentNode <$> nodes (dom (world late)) !! 22 = Some (Some 18)
     ∧ parentNode <$> nodes (dom (world late)) !! 18 = Some (Some 13)
     ∧ parentNode <$> nodes (dom (world late)) !! 13 = Some (Some 0)
     ∧ click 24 late = emit (Select 1.25%float 3%float) late).
Proof. vm_compute. repeat split. Qed.

Definition example_old_page : page :=
  mkPage
    (mkDocument
       {[ 0 := mkElement "div" "annotations" "" "old" [] [1] None [];
          1 := mkElement "p" "" "" "gone" [] [] (Some 0) [] ]} 2)
    0 [] [].

Definition example_old_state : state :=
  mkState (mkPlugin (Some (mkData tt [])) example_params 0 None None)
    example_old_page.

Lemma render_replaces_content_witness :
  let s1 := snd (render (λ _, "") example_annotations example_old_state) in
  let s2 := snd (render (λ _, "") example_annotations s1) in
  view 5 (nodes (dom (world s1))) 0
  = Some (Markup "div" "annotations" "" "" []
            [table_markup (λ _, "") example_annotations])
  ∧ view 5 (nodes (dom (world s2))) 0 = view 5 (nodes (dom (world s1))) 0.
Proof.
  assert (container_ok (dom (world example_old_state))
            (container (this example_old_state))
            (mkElement "div" "annotations" "" "old" [] [1] None [])) as Hok.
  { split; [reflexivity|]. split; [cbn; lia|].
    split; [repeat constructor|].
    intros Hin%list_elem_of_singleton. discriminate Hin. }
  destruct (render_replaces_content (λ _, "") example_annotations
              example_old_state _ Hok) as (_ & _ & _ & H4 & H5 & _).
  split; [apply H4|apply H5]; repeat constructor.
Defined.

(** ** The loaded table, from the run *)

Section LoadedRun.
Variable Number_toString : float -> string.
Variable querySelector : string -> JS.exn + option nat.
Variables (params : GeckoPluginParams) (w w' : page) (t : GeckoPlugin).
Variables (u : string) (jsondata : gecko_json) (ce : element).

Hypothesis Hnew : constructor querySelector params w = (Ok t, w').
Hypothesis Hurl : truthy (param_url params) = Some u.
Hypothesis Hjson : has_terms jsondata.
Hypothesis Hcont : container_ok (dom w) (container t) ce.

Let s := run Number_toString (mkState t w') [CallInit; Respond jsondata].

Lemma run_is_loaded : s = loaded Number_toString t w u ce jsondata.
Proof using All.
  subst s. apply constructor_fields in Hnew as (-> & _ & _ & _ & Hp & _).
  apply run_loaded; [by rewrite Hp|exact Hjson|exact Hcont].
Qed.

(** The table the container shows once the document is loaded: the
    header row, then one row per monologue, in order. *)
Lemma run_view_table fuel :
  4 ≤ fuel →
  table (this s) = Some (next (dom w))
  ∧ view fuel (nodes (dom (world s))) (next (dom w))
    = Some (table_markup Number_toString
              (segments 0 (monologues jsondata)))
  ∧ length (row_markup Number_toString
              <$> segments 0 (monologues jsondata))
    = length (monologues jsondata).
Proof using All.
  intros Hf. rewrite run_is_loaded. split; [reflexivity|]. split.
  - by apply loaded_view_table.
  - by rewrite length_fmap, segments_length.
Qed.

(** A click on the text cell of row [j] selects the times of the
    monologue at position [j]. *)
Lemma run_click_text_cell j mono :
  listeners ce = [] →
  monologues jsondata !! j = Some mono →
  click (S (S (3 * j + (6 + next (dom w))))) s
  = emit (Select (mono_start mono) (mono_end mono)) s.
Proof using All.
  intros Hq Hj. rewrite run_is_loaded. by apply click_text_cell.
Qed.
End LoadedRun.

(** * Further properties of the plugin *)

(** ** Loads that fail, and calls while loading *)

#[local] Transparent init_then.

Lemma init_then_no_terms ts jsondata s :
  Exists (λ mono, mono_terms mono = []) (monologues jsondata) →
  init_then ts jsondata s = (Throw JS.TypeError, s).
Proof.
  intros Hex. unfold init_then.
  change (λ mono index, match mono_terms mono with
                        | [] => throw JS.TypeError
                        | t0 :: _ => mret (mkAnno index (mono_start mono)
                                             (mono_end mono) (term_text t0))
                        end) with to_anno.
  erewrite bind_Throw; [reflexivity|]. apply map_call_no_terms. exact Hex.
Qed.

#[local] Opaque init_then.

Lemma run_two ts s a b : run ts s [a; b] = step ts (step ts s a) b.
Proof. reflexivity. Qed.

Lemma run_three ts s a b c :
  run ts s [a; b; c] = step ts (step ts (step ts s a) b) c.
Proof. reflexivity. Qed.

Lemma step_init ts s : step ts s CallInit = snd (init s).
Proof. reflexivity. Qed.

(** The state between [init] and the answer. *)
Definition loading (t : GeckoPlugin) (w : page) (u : string) : state :=
  mkState (with_data (Some (mkData tt [])) t)
    (mkPage (dom w) (closures w) (requests w ++ [u]) (emitted w)).

Lemma init_loading t w u :
  truthy (param_url (params t)) = Some u →
  snd (init (mkState t w)) = loading t w u.
Proof. intros Hu. rewrite (init_url (mkState t w) u Hu). reflexivity. Qed.

Lemma respond_loading ts jsondata t w u :
  respond ts jsondata (loading t w u)
  = snd (init_then ts jsondata (answered t w u)).
Proof.
  unfold respond, loading, answered.
  cbn [world this requests dom closures emitted].
  destruct (requests w ++ [u]) as [|r0 rest] eqn:E; [|reflexivity].
  apply app_eq_nil in E as [_ E]. discriminate E.
Qed.

(** X1. The answer to the fetch holds a monologue without terms: the
    callback throws before anything is rendered.  The plugin is left as
    by a fetch that failed: no table, no handler, no annotation, no
    notification, the document untouched, the fetch no longer in
    flight. *)
Theorem load_without_terms_is_lost (Number_toString : float -> string)
    (querySelector : string -> JS.exn + option nat)
    (params : GeckoPluginParams) (w w' : page) (t : GeckoPlugin)
    (u : string) (jsondata : gecko_json) :
  constructor querySelector params w = (Ok t, w') →
  truthy (param_url params) = Some u →
  Exists (λ mono, mono_terms mono = []) (monologues jsondata) →
  let s := run Number_toString (mkState t w') [CallInit; Respond jsondata] in
  s = run Number_toString (mkState t w') [CallInit; FailRequest]
  ∧ data (this s) = Some (mkData tt [])
  ∧ table (this s) = None
  ∧ _onClick (this s) = None
  ∧ dom (world s) = dom w
  ∧ emitted (world s) = emitted w
  ∧ requests (world s) = tail (requests w ++ [u]).
Proof.
  intros Hc Hu Hex s.
  apply constructor_fields in Hc as (-> & Hd & Ht & Ho & Hp & _).
  rewrite <- Hp in Hu.
  assert (s = answered t w u) as ->.
  { unfold s. rewrite run_two, step_init, (init_loading t w u Hu).
    cbn [step]. rewrite respond_loading.
    rewrite init_then_no_terms by exact Hex. reflexivity. }
  split.
  { rewrite run_two, step_init, (init_loading t w u Hu). reflexivity. }
  cbn [answered this world data table _onClick with_data dom emitted requests].
  repeat split; assumption.
Qed.

Definition example_json_no_terms : gecko_json :=
  mkJson [mkMono 0%float 1.25%float [mkTerm "hi"];
          mkMono 1.25%float 3%float []].

Lemma load_without_terms_is_lost_witness :
  let s := run (λ _, "") (mkState example_plugin example_page)
             [CallInit; Respond example_json_no_terms] in
  table (this s) = None ∧ world s = example_page.
Proof.
  assert (Exists (λ mono, mono_terms mono = [])
            (monologues example_json_no_terms)) as Hex.
  { right. left. reflexivity. }
  destruct (load_without_terms_is_lost (λ _, "") example_querySelector
              example_params example_page example_page example_plugin
              "t.json" example_json_no_terms eq_refl eq_refl Hex)
    as (_ & _ & Ht & _).
  split; [exact Ht|]. vm_compute. reflexivity.
Defined.

(** X2. [destroy] while the fetch is in flight throws (there is no table
    yet) and cancels nothing: the answer that arrives later is rendered,
    bound and announced as if [destroy] had not been called. *)
Theorem destroy_does_not_cancel_load (Number_toString : float -> string)
    (querySelector : string -> JS.exn + option nat)
    (params : GeckoPluginParams) (w w' : page) (t : GeckoPlugin)
    (u : string) (jsondata : gecko_json) :
  constructor querySelector params w = (Ok t, w') →
  truthy (param_url params) = Some u →
  destroy (snd (init (mkState t w')))
  = (Throw JS.TypeError, snd (init (mkState t w')))
  ∧ run Number_toString (mkState t w') [CallInit; CallDestroy; Respond jsondata]
    = run Number_toString (mkState t w') [CallInit; Respond jsondata].
Proof.
  intros Hc Hu.
  apply constructor_fields in Hc as (-> & Hd & Ht & Ho & Hp & _).
  rewrite <- Hp in Hu.
  assert (destroy (snd (init (mkState t w)))
          = (Throw JS.TypeError, snd (init (mkState t w)))) as Hdes.
  { rewrite (init_loading t w u Hu).
    apply destroy_no_table; cbn [loading this with_data table _onClick];
      assumption. }
  split; [exact Hdes|].
  rewrite run_three, run_two, step_init.
  change (step Number_toString (snd (init (mkState t w))) CallDestroy)
    with (snd (destroy (snd (init (mkState t w))))).
  rewrite Hdes. reflexivity.
Qed.

Lemma destroy_does_not_cancel_load_witness :
  run (λ _, "") (mkState example_plugin example_page)
    [CallInit; CallDestroy; Respond example_json]
  = example_loaded.
Proof.
  exact (proj2 (destroy_does_not_cancel_load (λ _, "") example_querySelector
                  example_params example_page example_page example_plugin
                  "t.json" example_json eq_refl eq_refl)).
Defined.

(** ** What a successful load leaves *)

(** X3. The answer to the fetch of [init] holds monologues with terms:
    the callback adds exactly one notification, "ready", whose payload
    is the data object the plugin now holds; the table field is the node
    created first, the handler field the function object created by
    [bindClick], and the fetch is no longer in flight. *)
Theorem load_emits_ready_once (Number_toString : float -> string)
    (querySelector : string -> JS.exn + option nat)
    (params : GeckoPluginParams) (w w' : page) (t : GeckoPlugin)
    (u : string) (jsondata : gecko_json) :
  constructor querySelector params w = (Ok t, w') →
  truthy (param_url params) = Some u →
  has_terms jsondata →
  let s := run Number_toString (mkState t w') [CallInit; Respond jsondata] in
  ∃ d,
    data (this s) = Some d
    ∧ emitted (world s) = emitted w ++ [Ready d]
    ∧ table (this s) = Some (next (dom w))
    ∧ _onClick (this s) = Some (closures w)
    ∧ closures (world s) = S (closures w)
    ∧ requests (world s) = tail (requests w ++ [u])
    ∧ Gecko.params (this s) = params
    ∧ container (this s) = container t.
Proof.
  intros Hc Hu Hj s.
  apply constructor_fields in Hc as (-> & Hd & Ht & Ho & Hp & _).
  destruct (render_total Number_toString (segments 0 (monologues jsondata))
              (answered t w u)) as [dm Hr].
  assert (s = loaded_state (answered t w u) (mkData tt [])
                (segments 0 (monologues jsondata)) dm) as ->.
  { unfold s. apply run_init_respond; [|exact Hj|exact Hr].
    rewrite Hp. exact Hu. }
  clear Hr.
  exists (mkData tt (segments 0 (monologues jsondata))).
  cbn [loaded_state answered this world data table _onClick emitted closures
       requests Gecko.params container with_data dom media].
  repeat split. exact Hp.
Qed.

Lemma load_emits_ready_once_witness :
  emitted (world example_loaded) = [Ready (mkData tt example_annotations)].
Proof.
  assert (has_terms example_json) as Hj by (repeat constructor; discriminate).
  destruct (load_emits_ready_once (λ _, "") example_querySelector
              example_params example_page example_page example_plugin
              "t.json" example_json eq_refl eq_refl Hj)
    as (d & Hd & He & _).
  unfold example_loaded. rewrite He.
  vm_compute in Hd. injection Hd as <-. reflexivity.
Defined.

(** ** Calling [init] again *)

(** X4. [init] called in any state (on a loaded plugin, say) replaces the
    data by an empty annotation list and, with a url, puts one more
    fetch in flight, but leaves the document, the table and the bound
    handler as they are: until an answer arrives the table is still
    shown, every time lookup returns nothing and no click emits
    anything. *)
Theorem init_again_forgets_annotations (s : state) :
  let s' := snd (init s) in
  data (this s') = Some (mkData tt [])
  ∧ dom (world s') = dom (world s)
  ∧ table (this s') = table (this s)
  ∧ _onClick (this s') = _onClick (this s)
  ∧ emitted (world s') = emitted (world s)
  ∧ requests (world s')
    = requests (world s)
      ++ match truthy (param_url (params (this s))) with
         | Some u => [u]
         | None => []
         end
  ∧ (∀ time, getRenderedAnnotation time s' = (Ok None, s'))
  ∧ (∀ target, click target s' = s').
Proof.
  intros s'.
  assert (data (this s') = Some (mkData tt [])
          ∧ dom (world s') = dom (world s)
          ∧ table (this s') = table (this s)
          ∧ _onClick (this s') = _onClick (this s)
          ∧ emitted (world s') = emitted (world s)
          ∧ requests (world s')
            = requests (world s)
              ++ match truthy (param_url (params (this s))) with
                 | Some u => [u]
                 | None => []
                 end) as H.
  { unfold s'. destruct (truthy (param_url (params (this s)))) as [u|] eqn:E.
    - rewrite (init_url s u E). repeat split.
    - rewrite (init_no_url s E). cbn [snd this world with_data data table
                                      _onClick requests].
      rewrite app_nil_r. repeat split. }
  destruct H as (Hd & H1 & H2 & H3 & H4 & H5). clearbody s'.
  repeat split; try assumption.
  - intros time. unfold getRenderedAnnotation. run_M. rewrite Hd.
    reflexivity.
  - intros target. apply click_nothing_stored.
    intros d. rewrite Hd. intros [= <-]. reflexivity.
Qed.

(** ** The loaded table and the clicks on it *)

(** The row [render] makes of the monologue [mono] at position [j],
    whose first term is [t0]. *)
Definition monologue_row (Number_toString : float -> string) (j : nat)
    (mono : monologue) (t0 : term) : markup :=
  Markup "tr" ("wavesurfer-annotation-" +:+ JS.index_to_string j) "" "" []
    [Markup "td" "" "wavesurfer-time"
       (toFixed1 Number_toString (mono_start mono) +:+ time_separator
        +:+ toFixed1 Number_toString (mono_end mono)) [] [];
     Markup "td" ("wavesurfer-text-" +:+ JS.index_to_string j)
       "wavesurfer-tier-" (term_text t0)
       [("ref", JS.index_to_string j);
        ("start", Number_toString (mono_start mono));
        ("end", Number_toString (mono_end mono))] []].

(** The nodes of the loaded table that are no text cells: the table, its
    head, the header row and its two cells, the body, the rows and the
    time cells. *)
Definition plain_node (k n target : nat) : Prop :=
  (k ≤ target < 6 + k)
  ∨ ∃ j, j < n ∧ (target = 3 * j + (6 + k) ∨ target = S (3 * j + (6 + k))).

Section LoadedTable.
Variable Number_toString : float -> string.
Variables (t : GeckoPlugin) (w : page) (u : string) (ce : element).
Variable jsondata : gecko_json.

Hypothesis Hjson : has_terms jsondata.
Hypothesis Hcont : container_ok (dom w) (container t) ce.

Lemma loaded_view_container fuel :
  5 ≤ fuel →
  view fuel (nodes (dom (world (loaded Number_toString t w u ce jsondata))))
    (container t)
  = Some (Markup (tagName ce) (elem_id ce) (className ce) "" (dataset ce)
            [table_markup Number_toString
               (segments 0 (monologues jsondata))]).
Proof using Hcont.
  destruct Hcont as (Hce & Hlt & Hkids & Hself). intros Hf.
  cbn [loaded world dom nodes]. rewrite view_alter.
  - by apply rendered_view_container.
  - intros []. unfold bound. by destruct (decide _).
Qed.

Lemma segment_row j mono :
  monologues jsondata !! j = Some mono →
  ∃ t0 rest,
    mono_terms mono = t0 :: rest
    ∧ (row_markup Number_toString <$> segments 0 (monologues jsondata)) !! j
      = Some (monologue_row Number_toString j mono t0).
Proof using Hjson.
  intros Hj. unfold has_terms in Hjson. rewrite Forall_forall in Hjson.
  assert (mono_terms mono ≠ []) as Hm.
  { apply Hjson. by eapply list_elem_of_lookup_2. }
  destruct (mono_terms mono) as [|t0 rest] eqn:E; [done|].
  exists t0, rest. split; [reflexivity|].
  rewrite list_lookup_fmap, segments_lookup, Hj.
  cbn [fmap option_fmap option_map]. unfold row_markup, segment, time_text.
  cbn [anno_id anno_start anno_end anno_text]. rewrite E. reflexivity.
Qed.

Lemma loaded_plain_node target :
  plain_node (next (dom w)) (length (monologues jsondata)) target →
  clicked_annotation (loaded Number_toString t w u ce jsondata) target = None.
Proof using Hcont.
  destruct Hcont as (Hce & Hlt & Hkids & Hself).
  intros Hp. unfold clicked_annotation.
  assert (target ≠ container t) as Hne.
  { destruct Hp as [Hp|(j & _ & [-> | ->])]; lia. }
  rewrite loaded_other by exact Hne.
  destruct Hp as [Hp|(j & Hj & Hp)].
  - assert (target = next (dom w) ∨ target = 1 + next (dom w)
            ∨ target = 2 + next (dom w) ∨ target = 3 + next (dom w)
            ∨ target = 4 + next (dom w) ∨ target = 5 + next (dom w))
      as Hc by lia.
    destruct Hc as [-> | [-> | [-> | [-> | [-> | ->]]]]].
    + by rewrite rendered_table.
    + by rewrite rendered_thead.
    + by rewrite rendered_headRow.
    + by rewrite rendered_timeTh.
    + by rewrite rendered_textTh.
    + by rewrite rendered_tbody.
  - rewrite <- (segments_length (monologues jsondata) 0) in Hj.
    apply lookup_lt_is_Some_2 in Hj as [a Ha].
    destruct (rendered_row Number_toString _ (container t) ce _ _
                Hce Hlt Hkids Hself j a Ha) as (Hr & Ht & _).
    destruct Hp as [-> | ->]; [by rewrite Hr|by rewrite Ht].
Qed.
End LoadedTable.

(** X5. For every document whose monologues have a first term, once it
    is loaded the container shows exactly one table: the header row
    ("Time", "Text"), then one row per monologue, in order.  The row at
    position [j] has the id "wavesurfer-annotation-j"; its time cell
    reads the two times, [toFixed(1)] each, joined by the separator of
    the source; its text cell has the id "wavesurfer-text-j", the first
    term's text and the data attributes ref, start and end. *)
Theorem loaded_table_markup (Number_toString : float -> string)
    (querySelector : string -> JS.exn + option nat)
    (params : GeckoPluginParams) (w w' : page) (t : GeckoPlugin)
    (u : string) (jsondata : gecko_json) (ce : element) :
  constructor querySelector params w = (Ok t, w') →
  truthy (param_url params) = Some u →
  has_terms jsondata →
  container_ok (dom w) (container t) ce →
  let s := run Number_toString (mkState t w') [CallInit; Respond jsondata] in
  ∃ rows,
    (∀ fuel, 5 ≤ fuel →
       view fuel (nodes (dom (world s))) (container t)
       = Some (Markup (tagName ce) (elem_id ce) (className ce) ""
                 (dataset ce)
                 [Markup "table" "" "wavesurfer-annotations" "" []
                    [Markup "thead" "" "" "" []
                       [Markup "tr" "" "" "" []
                          [Markup "th" "" "wavesurfer-time" "Time" [] [];
                           Markup "th" "" "wavesurfer-tier-" "Text" [] []]];
                     Markup "tbody" "" "" "" [] rows]]))
    ∧ length rows = length (monologues jsondata)
    ∧ ∀ j mono,
        monologues jsondata !! j = Some mono →
        ∃ t0 rest,
          mono_terms mono = t0 :: rest
          ∧ rows !! j = Some (monologue_row Number_toString j mono t0).
Proof.
  intros Hc Hu Hj Hcont s.
  assert (s = loaded Number_toString t w u ce jsondata) as ->
    by exact (run_is_loaded Number_toString querySelector params w w' t u
                jsondata ce Hc Hu Hj Hcont).
  exists (row_markup Number_toString <$> segments 0 (monologues jsondata)).
  split; [|split].
  - intros fuel Hf.
    exact (loaded_view_container Number_toString t w u ce jsondata Hcont
             fuel Hf).
  - by rewrite length_fmap, segments_length.
  - intros j mono Hm.
    exact (segment_row Number_toString jsondata Hj j mono Hm).
Qed.

Lemma example_container_ok :
  container_ok (dom example_page) (container example_plugin)
    (mkElement "div" "annotations" "" "" [] [] None []).
Proof.
  split; [reflexivity|]. split; [cbn; lia|].
  split; [constructor|]. apply not_elem_of_nil.
Defined.

Lemma example_has_terms : has_terms example_json.
Proof. repeat constructor; discriminate. Defined.

Lemma loaded_table_markup_witness :
  ∃ rows,
    view 5 (nodes (dom (world example_loaded))) 0
    = Some (Markup "div" "annotations" "" "" []
              [Markup "table" "" "wavesurfer-annotations" "" []
                 [Markup "thead" "" "" "" []
                    [Markup "tr" "" "" "" []
                       [Markup "th" "" "wavesurfer-time" "Time" [] [];
                        Markup "th" "" "wavesurfer-tier-" "Text" [] []]];
                  Markup "tbody" "" "" "" [] rows]])
    ∧ length rows = 2.
Proof.
  destruct (loaded_table_markup (λ _, "") example_querySelector
              example_params example_page example_page example_plugin
              "t.json" example_json _ eq_refl eq_refl example_has_terms
              example_container_ok) as (rows & Hv & Hl & _).
  exists rows. split; [exact (Hv 5 (le_n 5))|exact Hl].
Defined.

(** X6. A click on the text cell of row [j] of the loaded table, on a
    container that had no listener of the plugin before, emits exactly
    one notification: "select" with the start and end of the monologue
    at position [j] (the id written into the cell's ref attribute parses
    back to [j]). *)
Theorem click_loaded_text_cell (Number_toString : float -> string)
    (querySelector : string -> JS.exn + option nat)
    (params : GeckoPluginParams) (w w' : page) (t : GeckoPlugin)
    (u : string) (jsondata : gecko_json) (ce : element)
    (j : nat) (mono : monologue) :
  constructor querySelector params w = (Ok t, w') →
  truthy (param_url params) = Some u →
  has_terms jsondata →
  container_ok (dom w) (container t) ce →
  listeners ce = [] →
  monologues jsondata !! j = Some mono →
  let s := run Number_toString (mkState t w') [CallInit; Respond jsondata] in
  let cell := S (S (3 * j + (6 + next (dom w)))) in
  (∃ e, nodes (dom (world s)) !! cell = Some e
        ∧ tagName e = "td"
        ∧ elem_id e = "wavesurfer-text-" +:+ JS.index_to_string j
        ∧ data_get "ref" (dataset e) = Some (JS.index_to_string j))
  ∧ click cell s = emit (Select (mono_start mono) (mono_end mono)) s.
Proof.
  intros Hc Hu Hj Hcont Hq Hm s cell. split.
  - assert (s = loaded Number_toString t w u ce jsondata) as ->
      by exact (run_is_loaded Number_toString querySelector params w w' t u
                  jsondata ce Hc Hu Hj Hcont).
    destruct Hcont as (Hce & Hlt & Hkids & Hself).
    assert (segments 0 (monologues jsondata) !! j = Some (segment j mono))
      as Ha by (by rewrite segments_lookup, Hm).
    destruct (rendered_row Number_toString _ (container t) ce _ _
                Hce Hlt Hkids Hself j _ Ha) as (_ & _ & Hx).
    exists (text_el Number_toString (segment j mono)
              (3 * j + (6 + next (dom w)))).
    split; [|repeat split].
    unfold cell. rewrite loaded_other by lia. exact Hx.
  - exact (run_click_text_cell Number_toString querySelector params w w' t u
             jsondata ce Hc Hu Hj Hcont j mono Hq Hm).
Qed.

Lemma click_loaded_text_cell_witness :
  click 12 example_loaded
  = emit (Select 1.25%float 3%float) example_loaded.
Proof.
  exact (proj2 (click_loaded_text_cell (λ _, "") example_querySelector
                  example_params example_page example_page example_plugin
                  "t.json" example_json _ 1
                  (mkMono 1.25%float 3%float [mkTerm "bye"; mkTerm "for now"])
                  eq_refl eq_refl example_has_terms example_container_ok
                  eq_refl eq_refl)).
Defined.

(** X7. A click on any other node of the loaded table (the table, its
    head and body, a header cell, a row, a time cell) emits nothing and
    changes nothing, however many handlers are bound: none of these
    nodes carries a ref attribute. *)
Theorem click_loaded_plain_node (Number_toString : float -> string)
    (querySelector : string -> JS.exn + option nat)
    (params : GeckoPluginParams) (w w' : page) (t : GeckoPlugin)
    (u : string) (jsondata : gecko_json) (ce : element) (target : nat) :
  constructor querySelector params w = (Ok t, w') →
  truthy (param_url params) = Some u →
  has_terms jsondata →
  container_ok (dom w) (container t) ce →
  plain_node (next (dom w)) (length (monologues jsondata)) target →
  let s := run Number_toString (mkState t w') [CallInit; Respond jsondata] in
  click target s = s.
Proof.
  intros Hc Hu Hj Hcont Hp s.
  assert (s = loaded Number_toString t w u ce jsondata) as ->
    by exact (run_is_loaded Number_toString querySelector params w w' t u
                jsondata ce Hc Hu Hj Hcont).
  apply click_unresolved.
  exact (loaded_plain_node Number_toString t w u ce jsondata Hcont target Hp).
Qed.

Lemma click_loaded_plain_node_witness :
  click 11 example_loaded = example_loaded
  ∧ click 4 example_loaded = example_loaded.
Proof.
  split.
  - refine (click_loaded_plain_node (λ _, "") example_querySelector
              example_params example_page example_page example_plugin
              "t.json" example_json _ 11 eq_refl eq_refl example_has_terms
              example_container_ok _).
    right. exists 1. split; [cbn; lia|]. right. reflexivity.
  - refine (click_loaded_plain_node (λ _, "") example_querySelector
              example_params example_page example_page example_plugin
              "t.json" example_json _ 4 eq_refl eq_refl example_has_terms
              example_container_ok _).
    left. cbn. lia.
Defined.

(** ** Tearing down again *)

Lemma remove_id_absent x (l : list nat) : x ∉ l → remove_id x l = l.
Proof.
  unfold remove_id. induction l as [|y l IH]; intros Hx; [reflexivity|].
  apply not_elem_of_cons in Hx as [Hne Hx].
  rewrite filter_cons, decide_True by congruence.
  by rewrite IH.
Qed.

Lemma remove_id_gone x (l : list nat) : x ∉ remove_id x l.
Proof.
  unfold remove_id. intros [Hx _]%list_elem_of_filter. by apply Hx.
Qed.

(** [destroy] when the handler is not among the container's listeners
    and the table is not a child of the container. *)
Lemma destroy_detached s ce te tb :
  table (this s) = Some tb →
  nodes (dom (world s)) !! container (this s) = Some ce →
  (∀ f, _onClick (this s) = Some f → f ∉ listeners ce) →
  nodes (dom (world s)) !! tb = Some te →
  parentNode te ≠ Some (container (this s)) →
  destroy s = (Throw JS.NotFoundError, s).
Proof.
  intros Ht Hce Hf Hte Hp. rewrite destroy_run.
  assert (removeEventListener (container (this s)) (_onClick (this s))
            (dom (world s)) = dom (world s)) as ->.
  { destruct (_onClick (this s)) as [f|]; [|reflexivity].
    unfold removeEventListener, with_nodes.
    rewrite alter_id; [by destruct (dom (world s))|].
    intros x Hx. rewrite Hce in Hx. injection Hx as <-.
    rewrite remove_id_absent by (by apply Hf). by destruct ce. }
  unfold removeChild. rewrite Ht, Hte. rewrite decide_False by exact Hp.
  by destruct s as [t [d c r e]].
Qed.

Section LoadedTeardownAny.
Variable Number_toString : float -> string.
Variables (t : GeckoPlugin) (w : page) (u : string) (ce : element).
Variable jsondata : gecko_json.
Variable s : state.

Hypothesis Hcont : container_ok (dom w) (container t) ce.
Hypothesis Hthis : this s = this (loaded Number_toString t w u ce jsondata).
Hypothesis Hdom :
  dom (world s) = dom (world (loaded Number_toString t w u ce jsondata)).

(** [destroy] on a state that has the plugin fields and the document of
    the loaded state, whatever listeners the container had before. *)
Lemma destroy_loaded_any :
  ∃ d',
    destroy s
    = (Ok tt,
       mkState (this s)
         (mkPage d' (closures (world s)) (requests (world s))
            (emitted (world s))))
    ∧ next d' = next (dom (world s))
    ∧ (∃ ce', nodes d' !! container t = Some ce'
              ∧ listeners ce'
                = remove_id (closures w) (listeners (bound (closures w) ce))
              ∧ children ce' = []
              ∧ elem_id ce' = elem_id ce)
    ∧ (∃ te, nodes d' !! next (dom w) = Some te ∧ parentNode te = None).
Proof using All.
  destruct Hcont as (Hce & Hlt & Hkids & Hself).
  set (k := next (dom w)) in *. set (cont := container t) in *.
  set (f := closures w).
  set (F := rendered_nodes Number_toString
              (segments 0 (monologues jsondata)) cont ce k (nodes (dom w))).
  set (unlisten := λ e, with_listeners (remove_id f (listeners e)) e).
  set (unchild := λ e, with_children (remove_id k (children e)) e).
  set (n := 3 * length (segments 0 (monologues jsondata)) + (6 + k)).
  assert (F !! cont = Some (append_child k (emptied ce))) as HFc
    by (by apply rendered_container).
  assert (F !! k = Some (with_parent (Some cont) (table_el k))) as HFk
    by (by apply rendered_table).
  exists (mkDocument
            (alter (with_parent None) k
               (alter unchild cont
                  (alter unlisten cont (alter (bound f) cont F)))) n).
  split; [|split; [|split]].
  - rewrite destroy_run, Hthis, Hdom.
    cbn [loaded this world dom container table _onClick].
    fold k cont f F n.
    unfold removeEventListener, with_nodes. cbn [nodes next].
    fold unlisten. unfold removeChild. cbn [nodes next].
    rewrite !lookup_alter_ne by lia. rewrite HFk.
    cbn [parentNode with_parent]. rewrite decide_True by reflexivity.
    reflexivity.
  - rewrite Hdom. reflexivity.
  - cbn [nodes]. rewrite lookup_alter_ne by lia.
    rewrite !lookup_alter_eq, HFc.
    cbn [fmap option_fmap option_map]. eexists. split; [reflexivity|].
    unfold unchild, unlisten, bound.
    cbn [listeners children append_child emptied with_children with_text
         with_listeners].
    destruct (decide (f ∈ listeners ce)) as [Hin|Hin];
      cbn [listeners children elem_id with_listeners with_children];
      (split; [reflexivity|split; [apply remove_id_self|reflexivity]]).
  - cbn [nodes]. rewrite lookup_alter_eq. rewrite !lookup_alter_ne by lia.
    rewrite HFk. eexists. split; reflexivity.
Qed.
End LoadedTeardownAny.

(** X8. [destroy] a second time: the first call returns; the second
    throws (a NotFoundError of [removeChild], the table being no child
    of the container any more) and changes nothing. *)
Theorem destroy_twice_throws (Number_toString : float -> string)
    (querySelector : string -> JS.exn + option nat)
    (params : GeckoPluginParams) (w w' : page) (t : GeckoPlugin)
    (u : string) (jsondata : gecko_json) (ce : element)
    (before : list action) :
  constructor querySelector params w = (Ok t, w') →
  truthy (param_url params) = Some u →
  has_terms jsondata →
  container_ok (dom w) (container t) ce →
  Forall is_interaction before →
  let s := run Number_toString (mkState t w')
             (CallInit :: Respond jsondata :: before) in
  let s' := snd (destroy s) in
  fst (destroy s) = Ok tt
  ∧ destroy s' = (Throw JS.NotFoundError, s').
Proof.
  intros Hc Hu Hj Hcont Hbefore s s'.
  apply constructor_fields in Hc as (-> & _ & _ & _ & Hp & _).
  rewrite <- Hp in Hu.
  pose proof (run_loaded Number_toString t w u ce jsondata Hu Hj Hcont) as HL.
  assert (s = run Number_toString
                (loaded Number_toString t w u ce jsondata) before) as Hs.
  { rewrite <- HL. reflexivity. }
  destruct (interactions_keep Number_toString before
              (loaded Number_toString t w u ce jsondata) Hbefore)
    as (Hthis & Hdom & _).
  rewrite <- Hs in Hthis, Hdom. clear Hs HL.
  destruct (destroy_loaded_any Number_toString t w u ce jsondata s Hcont
              Hthis Hdom)
    as (d' & Hd & _ & (ce1 & Hce1 & Hl1 & _) & (te & Hte & Hpar)).
  unfold s'. rewrite Hd. cbn [fst snd]. split; [reflexivity|].
  apply (destroy_detached _ ce1 te (next (dom w)));
    cbn [this world dom]; rewrite ?Hthis; cbn [loaded this table container
                                               _onClick].
  - reflexivity.
  - exact Hce1.
  - intros f [= <-]. rewrite Hl1. apply remove_id_gone.
  - exact Hte.
  - rewrite Hpar. discriminate.
Qed.

Lemma destroy_twice_throws_witness :
  let s' := snd (destroy example_loaded) in
  fst (destroy example_loaded) = Ok tt
  ∧ destroy s' = (Throw JS.NotFoundError, s').
Proof.
  exact (destroy_twice_throws (λ _, "") example_querySelector
           example_params example_page example_page example_plugin
           "t.json" example_json _ [] eq_refl eq_refl example_has_terms
           example_container_ok (List.Forall_nil _)).
Defined.

(** ** What [render] leaves alone *)

Lemma lookup_orphan_in kids : ∀ (m : gmap nat element) i,
  i ∈ kids → orphan kids m !! i = with_parent None <$> m !! i.
Proof.
  induction kids as [|k kids IH]; intros m i Hi;
    [by apply elem_of_nil in Hi|].
  cbn [orphan foldr]. fold (orphan kids m).
  destruct (decide (k = i)) as [->|Hne].
  - rewrite lookup_alter_eq.
    destruct (decide (i ∈ kids)) as [Hin|Hin].
    + rewrite IH by exact Hin. by destruct (m !! i).
    + by rewrite lookup_orphan_ne.
  - rewrite lookup_alter_ne by exact Hne.
    apply elem_of_cons in Hi as [->|Hi]; [done|]. by apply IH.
Qed.

(** X9. [render] touches the container, the container's former children
    and nodes it creates, and nothing else: every other node of the
    document is as before; a former child of the container only loses
    its parent; [6 + 3 n] nodes are created for [n] annotations; nothing
    is emitted, fetched or bound, and of the plugin's fields only
    [table] changes. *)
Theorem render_keeps_the_rest (Number_toString : float -> string)
    (l : list anno) (s : state) (ce : element) :
  container_ok (dom (world s)) (container (this s)) ce →
  let s1 := snd (render Number_toString l s) in
  next (dom (world s1)) = 6 + 3 * length l + next (dom (world s))
  ∧ (∀ i, i < next (dom (world s)) → i ≠ container (this s) →
          i ∉ children ce →
          nodes (dom (world s1)) !! i = nodes (dom (world s)) !! i)
  ∧ (∀ i, i ∈ children ce →
          nodes (dom (world s1)) !! i
          = with_parent None <$> nodes (dom (world s)) !! i)
  ∧ closures (world s1) = closures (world s)
  ∧ requests (world s1) = requests (world s)
  ∧ emitted (world s1) = emitted (world s)
  ∧ data (this s1) = data (this s)
  ∧ Gecko.params (this s1) = Gecko.params (this s)
  ∧ container (this s1) = container (this s)
  ∧ _onClick (this s1) = _onClick (this s).
Proof.
  intros Hok s1. unfold s1.
  rewrite (render_state Number_toString l s ce Hok).
  destruct Hok as (Hce & Hlt & Hkids & Hself).
  cbn [snd this world dom nodes next closures requests emitted with_table
       data Gecko.params container _onClick].
  split; [lia|]. split; [|split; [|repeat split]].
  - intros i Hi Hne Hnot. unfold rendered_nodes.
    rewrite !lookup_alter_ne by lia.
    rewrite lookup_orphan_ne by exact Hnot.
    rewrite rows_nodes_old by lia. unfold head_nodes.
    by rewrite !lookup_insert_ne by lia.
  - intros i Hi. unfold rendered_nodes.
    assert (i < next (dom (world s))) as Hi'.
    { rewrite Forall_forall in Hkids. by apply Hkids. }
    assert (i ≠ container (this s)) as Hne by (intros ->; done).
    rewrite !lookup_alter_ne by (done || lia).
    rewrite lookup_orphan_in by exact Hi.
    rewrite rows_nodes_old by lia. unfold head_nodes.
    by rewrite !lookup_insert_ne by lia.
Qed.

Lemma render_keeps_the_rest_witness :
  let s1 := snd (render (λ _, "") example_annotations example_old_state) in
  next (dom (world s1)) = 14
  ∧ nodes (dom (world s1)) !! 1
    = Some (mkElement "p" "" "" "gone" [] [] None []).
Proof.
  assert (container_ok (dom (world example_old_state))
            (container (this example_old_state))
            (mkElement "div" "annotations" "" "old" [] [1] None [])) as Hok.
  { split; [reflexivity|]. split; [cbn; lia|].
    split; [repeat constructor|].
    intros Hin%list_elem_of_singleton. discriminate Hin. }
  destruct (render_keeps_the_rest (λ _, "") example_annotations
              example_old_state _ Hok) as (H1 & _ & H3 & _).
  split; [exact H1|]. rewrite (H3 1); [reflexivity|].
  apply list_elem_of_singleton. reflexivity.
Defined.

(** ** Loading a second time *)

(** Every listener on the container is a handler of the plugin: a click
    that resolves to an annotation is announced once per listener. *)
Lemma click_two_listeners s target ce f g a :
  nodes (dom (world s)) !! container (this s) = Some ce →
  listeners ce = [f; g] →
  clicked_annotation s target = Some a →
  click target s
  = emit (Select (anno_start a) (anno_end a))
      (emit (Select (anno_start a) (anno_end a)) s).
Proof.
  intros Hce Hl Ha. unfold click. rewrite Hce, Hl. cbn [foldl].
  rewrite (onClick_spec target s), Ha.
  rewrite onClick_spec, clicked_annotation_emit, Ha. reflexivity.
Qed.

Lemma bound_children f e : children (bound f e) = children e.
Proof. unfold bound. by destruct (decide _). Qed.

Section LoadedAgain.
Variable Number_toString : float -> string.
Variables (t : GeckoPlugin) (w : page) (u : string) (ce : element).
Variables json1 json2 : gecko_json.

Hypothesis Hurl : truthy (param_url (params t)) = Some u.
Hypothesis Hj2 : has_terms json2.
Hypothesis Hcont : container_ok (dom w) (container t) ce.

Let s1 := loaded Number_toString t w u ce json1.
Let ce1 := bound (closures w) (append_child (next (dom w)) (emptied ce)).
Let k2 := 3 * length (monologues json1) + (6 + next (dom w)).

Lemma loaded_container_ok :
  container_ok (dom (world s1)) (container t) ce1.
Proof using Hcont.
  pose proof (loaded_container Number_toString t w u ce json1 Hcont) as Hc.
  destruct Hcont as (Hce & Hlt & Hkids & Hself).
  split; [exact Hc|]. subst s1 ce1.
  cbn [loaded world dom next]. rewrite bound_children.
  cbn [children append_child emptied with_children with_text].
  split; [lia|]. split.
  - repeat constructor. lia.
  - intros ?%list_elem_of_singleton. lia.
Qed.

Lemma loaded_next : next (dom (world s1)) = k2.
Proof using Type.
  subst s1 k2. cbn [loaded world dom next]. by rewrite segments_length.
Qed.

Definition loaded_again : state :=
  loaded Number_toString (this s1) (world s1) u ce1 json2.

Lemma run_loaded_again :
  run Number_toString s1 [CallInit; Respond json2] = loaded_again.
Proof using Hurl Hj2 Hcont.
  exact (run_loaded Number_toString (this s1) (world s1) u ce1 json2
           Hurl Hj2 loaded_container_ok).
Qed.

Lemma loaded_again_container :
  listeners ce = [] →
  ∃ ce2, nodes (dom (world loaded_again)) !! container t = Some ce2
         ∧ listeners ce2 = [closures w; S (closures w)]
         ∧ children ce2 = [k2].
Proof using Hcont.
  intros Hq.
  pose proof (loaded_container Number_toString (this s1) (world s1) u ce1
                json2 loaded_container_ok) as Hc.
  eexists. split; [exact Hc|]. rewrite bound_children.
  cbn [children append_child emptied with_children with_text].
  rewrite loaded_next. split; [|reflexivity].
  unfold bound at 1. subst ce1.
  cbn [listeners append_child emptied with_children with_text].
  unfold bound. cbn [listeners append_child emptied with_children with_text].
  rewrite Hq. rewrite (decide_False (P := closures w ∈ []))
    by apply not_elem_of_nil.
  cbn [listeners with_listeners app s1 loaded world closures].
  rewrite decide_False; [reflexivity|].
  intros ?%list_elem_of_singleton. lia.
Qed.

Lemma loaded_again_text_cell j mono :
  monologues json2 !! j = Some mono →
  clicked_annotation loaded_again (S (S (3 * j + (6 + k2))))
  = Some (segment j mono).
Proof using Hcont.
  intros Hj.
  assert (segments 0 (monologues json2) !! j = Some (segment j mono))
    as Ha by (by rewrite segments_lookup, Hj).
  destruct loaded_container_ok as (Hce & Hlt & Hkids & Hself).
  rewrite <- loaded_next. unfold clicked_annotation, loaded_again.
  rewrite loaded_other
    by (change (container (this s1)) with (container t); lia).
  destruct (rendered_row Number_toString _ (container (this s1)) ce1 _ _
              Hce Hlt Hkids Hself j _ Ha) as (_ & _ & ->).
  cbn [mbind option_bind text_el dataset data_get segment anno_id].
  rewrite decide_True by reflexivity.
  cbn [mbind option_bind loaded this data annotations].
  rewrite parseInt_index. unfold JS.array_get.
  rewrite (proj2 (Z.leb_le 0 (Z.of_nat j))) by lia.
  by rewrite Nat2Z.id.
Qed.

Lemma loaded_again_old_table :
  ∃ te, nodes (dom (world loaded_again)) !! next (dom w) = Some te
        ∧ parentNode te = None.
Proof using Hcont.
  destruct loaded_container_ok as (Hce1 & Hlt1 & Hkids1 & Hself1).
  destruct Hcont as (Hce & Hlt & Hkids & Hself).
  unfold loaded_again. rewrite loaded_other
    by (change (container (this s1)) with (container t); lia).
  assert (next (dom w) ∈ children ce1) as Hin.
  { subst ce1. rewrite bound_children. apply list_elem_of_singleton.
    reflexivity. }
  rewrite loaded_next in *.
  assert (next (dom w) < k2) as Hlt2 by (subst k2; lia).
  unfold rendered_nodes.
  change (container (this s1)) with (container t).
  rewrite !lookup_alter_ne by lia.
  rewrite lookup_orphan_in by exact Hin.
  rewrite rows_nodes_old by lia. unfold head_nodes.
  rewrite !lookup_insert_ne by lia.
  change (nodes (dom (world s1)) !! next (dom w))
    with (nodes (dom (world (loaded Number_toString t w u ce json1)))
            !! next (dom w)).
  rewrite loaded_other by lia.
  rewrite (rendered_table Number_toString _ (container t) ce _ _
             Hce Hlt Hkids Hself).
  eexists. split; reflexivity.
Qed.
End LoadedAgain.

(** X10. [init] is called again on a loaded plugin and the second answer
    arrives.  The container then shows the second table only (the first
    is detached), but carries two handlers: a click on a text cell of
    the new table announces the same "select" twice.  [destroy] removes
    the table and the second handler; the handler of the first load
    stays registered on the container. *)
Theorem second_load_binds_second_handler (Number_toString : float -> string)
    (querySelector : string -> JS.exn + option nat)
    (params : GeckoPluginParams) (w w' : page) (t : GeckoPlugin)
    (u : string) (json1 json2 : gecko_json) (ce : element)
    (j : nat) (mono : monologue) :
  constructor querySelector params w = (Ok t, w') →
  truthy (param_url params) = Some u →
  has_terms json1 →
  has_terms json2 →
  container_ok (dom w) (container t) ce →
  listeners ce = [] →
  monologues json2 !! j = Some mono →
  let s := run Number_toString (mkState t w')
             [CallInit; Respond json1; CallInit; Respond json2] in
  let tb := 3 * length (monologues json1) + (6 + next (dom w)) in
  let sel := Select (mono_start mono) (mono_end mono) in
  table (this s) = Some tb
  ∧ (∃ ce2, nodes (dom (world s)) !! container t = Some ce2
            ∧ listeners ce2 = [closures w; S (closures w)]
            ∧ children ce2 = [tb])
  ∧ (∃ te, nodes (dom (world s)) !! next (dom w) = Some te
           ∧ parentNode te = None)
  ∧ click (S (S (3 * j + (6 + tb)))) s = emit sel (emit sel s)
  ∧ fst (destroy s) = Ok tt
  ∧ ∃ ce3, nodes (dom (world (snd (destroy s)))) !! container t = Some ce3
           ∧ listeners ce3 = [closures w] ∧ children ce3 = [].
Proof.
  intros Hc Hu Hj1 Hj2 Hcont Hq Hm s tb sel.
  apply constructor_fields in Hc as (-> & _ & _ & _ & Hp & _).
  rewrite <- Hp in Hu.
  assert (s = loaded_again Number_toString t w u ce json1 json2) as ->.
  { unfold s.
    change (run Number_toString (mkState t w)
              [CallInit; Respond json1; CallInit; Respond json2])
      with (run Number_toString
              (run Number_toString (mkState t w) [CallInit; Respond json1])
              [CallInit; Respond json2]).
    rewrite (run_loaded Number_toString t w u ce json1 Hu Hj1 Hcont).
    exact (run_loaded_again Number_toString t w u ce json1 json2 Hu Hj2
             Hcont). }
  destruct (loaded_again_container Number_toString t w u ce json1 json2
              Hcont Hq) as (ce2 & Hce2 & Hl2 & Hch2).
  pose proof (loaded_container_ok Number_toString t w u ce json1 Hcont)
    as Hok1.
  split; [|split; [|split; [|split]]].
  - unfold loaded_again. cbn [loaded this table world dom next].
    by rewrite segments_length.
  - exists ce2. repeat split; assumption.
  - exact (loaded_again_old_table Number_toString t w u ce json1 json2
             Hcont).
  - exact (click_two_listeners _ _ ce2 _ _ (segment j mono) Hce2 Hl2
             (loaded_again_text_cell Number_toString t w u ce json1 json2
                Hcont j mono Hm)).
  - destruct (destroy_loaded_any Number_toString _ _ u _ json2
                (loaded_again Number_toString t w u ce json1 json2)
                Hok1 eq_refl eq_refl)
      as (d' & Hd & _ & (ce3 & Hce3 & Hl3 & Hch3 & _) & _).
    rewrite Hd. cbn [fst snd world dom]. split; [reflexivity|].
    exists ce3. split; [exact Hce3|]. split; [|exact Hch3].
    rewrite Hl3. unfold bound.
    cbn [listeners append_child emptied with_children with_text].
    rewrite Hq. rewrite (decide_False (P := closures w ∈ []))
      by apply not_elem_of_nil.
    cbn [listeners with_listeners app loaded world closures].
    rewrite decide_False by (intros ?%list_elem_of_singleton; lia).
    cbn [listeners with_listeners app]. unfold remove_id.
    rewrite !filter_cons, filter_nil.
    rewrite decide_True by lia. rewrite decide_False by lia. reflexivity.
Qed.

Lemma second_load_binds_second_handler_witness :
  let s := run (λ _, "") (mkState example_plugin example_page)
             [CallInit; Respond example_json; CallInit; Respond example_json]
  in
  click 21 s = emit (Select 0%float 1.25%float)
                 (emit (Select 0%float 1.25%float) s).
Proof.
  destruct (second_load_binds_second_handler (λ _, "") example_querySelector
              example_params example_page example_page example_plugin
              "t.json" example_json example_json _ 0
              (mkMono 0%float 1.25%float [mkTerm "hi"])
              eq_refl eq_refl example_has_terms example_has_terms
              example_container_ok eq_refl eq_refl)
    as (_ & _ & _ & H & _).
  exact H.
Defined.

(** ** Finding the row of an annotation *)

Lemma first_found_none {A B} (f : A → option B) (l : list A) :
  (∀ x, x ∈ l → f x = None) → first_found f l = None.
Proof.
  induction l as [|a l IH]; intros Hl; [reflexivity|].
  cbn [first_found]. rewrite (Hl a) by apply list_elem_of_here.
  apply IH. intros x Hx. apply Hl. by apply list_elem_of_further.
Qed.

Lemma first_found_lookup {A B} (f : A → option B) (l : list A) :
  ∀ j x y,
    l !! j = Some x → f x = Some y →
    (∀ i x', i < j → l !! i = Some x' → f x' = None) →
    first_found f l = Some y.
Proof.
  induction l as [|a l IH]; intros j x y Hj Hx Hb; [done|].
  destruct j as [|j]; cbn [first_found].
  - injection Hj as ->. by rewrite Hx.
  - rewrite (Hb 0 a (Nat.lt_0_succ j) eq_refl).
    apply (IH j x y Hj Hx). intros i x' Hi Hl.
    apply (Hb (S i) x'); [lia|exact Hl].
Qed.

Lemma first_found_app_none {A B} (f : A → option B) (pre l : list A) :
  (∀ x, x ∈ pre → f x = None) →
  first_found f (pre ++ l) = first_found f l.
Proof.
  induction pre as [|a pre IH]; intros Hp; [reflexivity|].
  cbn [app first_found]. rewrite (Hp a) by apply list_elem_of_here.
  apply IH. intros x Hx. apply Hp. by apply list_elem_of_further.
Qed.

Lemma find_id_here (m : gmap nat element) id n e fuel :
  m !! n = Some e → elem_id e = id → find_id (S fuel) m id n = Some n.
Proof. intros Hn Hid. cbn [find_id]. by rewrite Hn, decide_True. Qed.

Lemma find_id_below (m : gmap nat element) id n e fuel :
  m !! n = Some e → elem_id e ≠ id →
  find_id (S fuel) m id n = first_found (find_id fuel m id) (children e).
Proof. intros Hn Hid. cbn [find_id]. by rewrite Hn, decide_False. Qed.

Lemma find_id_absent (m : gmap nat element) id n e :
  m !! n = Some e → elem_id e ≠ id →
  (∀ c fuel, c ∈ children e → find_id fuel m id c = None) →
  ∀ fuel, find_id fuel m id n = None.
Proof.
  intros Hn Hid Hc [|fuel]; [reflexivity|].
  rewrite (find_id_below m id n e fuel Hn Hid).
  apply first_found_none. intros c Hin. by apply Hc.
Qed.

(** The document element [root] has the node [c] at depth [d] below it,
    and a search for [id] from [root] comes to [c] without a hit: no
    node on the way down, and none in the subtrees before the way, has
    this id. *)
Inductive reaches (m : gmap nat element) (id : string)
    : nat → nat → nat → Prop :=
  | reaches_here c : reaches m id c c 0
  | reaches_below r e pre x post c d :
      m !! r = Some e →
      elem_id e ≠ id →
      children e = pre ++ x :: post →
      (∀ y fuel, y ∈ pre → find_id fuel m id y = None) →
      reaches m id x c d →
      reaches m id r c (S d).

Lemma find_id_reaches m id r c d :
  reaches m id r c d →
  ∀ fuel n, find_id fuel m id c = Some n → find_id (d + fuel) m id r = Some n.
Proof.
  induction 1 as [c|r e pre x post c d Hr Hid Hch Hpre _ IH];
    intros fuel n Hn; [exact Hn|].
  cbn [Nat.add]. rewrite (find_id_below m id r e _ Hr Hid), Hch.
  rewrite first_found_app_none by (intros y Hy; by apply Hpre).
  cbn [first_found]. by rewrite (IH fuel n Hn).
Qed.

Lemma index_to_string_inj i j :
  JS.index_to_string i = JS.index_to_string j → i = j.
Proof.
  intros H. pose proof (parseInt_index i) as Hi.
  rewrite H, parseInt_index in Hi. injection Hi. lia.
Qed.

(** The id [render] gives the row of the annotation with id [j]. *)
Definition row_id (j : nat) : string :=
  "wavesurfer-annotation-" +:+ JS.index_to_string j.

Lemma row_id_inj i j : row_id i = row_id j → i = j.
Proof. intros H%append_cancel_l. by apply index_to_string_inj. Qed.

Lemma row_id_not_empty j : "" ≠ row_id j.
Proof. unfold row_id. cbn. discriminate. Qed.

Lemma row_id_not_text_id i j :
  "wavesurfer-text-" +:+ JS.index_to_string i ≠ row_id j.
Proof. unfold row_id. cbn. discriminate. Qed.

Section LoadedSearch.
Variable Number_toString : float -> string.
Variables (t : GeckoPlugin) (w : page) (u : string) (ce : element).
Variable jsondata : gecko_json.

Hypothesis Hcont : container_ok (dom w) (container t) ce.

Let k := next (dom w).
Let m := nodes (dom (world (loaded Number_toString t w u ce jsondata))).

Lemma loaded_head_no_row j fuel : find_id fuel m (row_id j) (1 + k) = None.
Proof using Hcont.
  destruct Hcont as (Hce & Hlt & Hkids & Hself). revert fuel. subst m k.
  eapply find_id_absent.
  { rewrite loaded_other by lia. by apply rendered_thead. }
  { apply row_id_not_empty. }
  intros c fuel Hc%list_elem_of_singleton. subst c. revert fuel.
  eapply find_id_absent.
  { rewrite loaded_other by lia. by apply rendered_headRow. }
  { apply row_id_not_empty. }
  intros c fuel Hc. revert fuel.
  apply elem_of_cons in Hc as [->|Hc%list_elem_of_singleton]; [|subst c].
  - eapply find_id_absent.
    { rewrite loaded_other by lia. by apply rendered_timeTh. }
    { apply row_id_not_empty. }
    intros c fuel Hc. by apply elem_of_nil in Hc.
  - eapply find_id_absent.
    { rewrite loaded_other by lia. by apply rendered_textTh. }
    { apply row_id_not_empty. }
    intros c fuel Hc. by apply elem_of_nil in Hc.
Qed.

Lemma loaded_other_row_no_row i j a fuel :
  segments 0 (monologues jsondata) !! i = Some a → i ≠ j →
  find_id fuel m (row_id j) (3 * i + (6 + k)) = None.
Proof using Hcont.
  intros Ha Hne.
  assert (anno_id a = i) as Hid.
  { rewrite segments_lookup in Ha.
    destruct (monologues jsondata !! i); [|done]. by injection Ha as <-. }
  destruct Hcont as (Hce & Hlt & Hkids & Hself).
  destruct (rendered_row Number_toString _ (container t) ce _ _
              Hce Hlt Hkids Hself i a Ha) as (Hr & Ht & Hx).
  revert fuel. subst m k. eapply find_id_absent.
  { rewrite loaded_other by lia. exact Hr. }
  { cbn [row_el elem_id]. rewrite Hid. intros H%row_id_inj. by apply Hne. }
  intros c fuel Hc. revert fuel. cbn [row_el children] in Hc.
  apply elem_of_cons in Hc as [->|Hc%list_elem_of_singleton]; [|subst c].
  - eapply find_id_absent.
    { rewrite loaded_other by lia. exact Ht. }
    { apply row_id_not_empty. }
    intros c fuel Hc. by apply elem_of_nil in Hc.
  - eapply find_id_absent.
    { rewrite loaded_other by lia. exact Hx. }
    { cbn [text_el elem_id]. apply row_id_not_text_id. }
    intros c fuel Hc. by apply elem_of_nil in Hc.
Qed.

(** The search from the container comes to the row of position [j]. *)
Lemma loaded_find_row j mono fuel :
  monologues jsondata !! j = Some mono →
  elem_id ce ≠ row_id j →
  find_id (4 + fuel) m (row_id j) (container t) = Some (3 * j + (6 + k)).
Proof using Hcont.
  intros Hj Hid.
  assert (segments 0 (monologues jsondata) !! j = Some (segment j mono))
    as Ha by (by rewrite segments_lookup, Hj).
  pose proof (loaded_container Number_toString t w u ce jsondata Hcont)
    as Hc.
  pose proof (loaded_head_no_row j) as Hhead.
  pose proof (λ i a fuel, loaded_other_row_no_row i j a fuel) as Hrows.
  subst m k.
  destruct Hcont as (Hce & Hlt & Hkids & Hself).
  destruct (rendered_row Number_toString _ (container t) ce _ _
              Hce Hlt Hkids Hself j _ Ha) as (Hr & _ & _).
  assert (∀ fuel,
            find_id (S fuel)
              (nodes (dom (world (loaded Number_toString t w u ce jsondata))))
              (row_id j) (3 * j + (6 + next (dom w)))
            = Some (3 * j + (6 + next (dom w)))) as Hrow.
  { intros fuel'.
    eapply find_id_here;
      [rewrite loaded_other by lia; exact Hr|reflexivity]. }
  assert (∀ fuel,
            find_id (S (S fuel))
              (nodes (dom (world (loaded Number_toString t w u ce jsondata))))
              (row_id j) (5 + next (dom w))
            = Some (3 * j + (6 + next (dom w)))) as Hbody.
  { intros fuel'. erewrite find_id_below; cycle 1.
    { rewrite loaded_other by lia. by apply rendered_tbody. }
    { apply row_id_not_empty. }
    cbn [children with_children].
    assert (j < length (segments 0 (monologues jsondata))) as Hjl
      by (by eapply lookup_lt_Some).
    eapply (first_found_lookup _ _ j).
    - by apply row_ids_lookup.
    - apply Hrow.
    - intros i x' Hi Hx'. rewrite row_ids_lookup in Hx' by lia.
      injection Hx' as <-.
      destruct (lookup_lt_is_Some_2 (segments 0 (monologues jsondata)) i)
        as [a Hai]; [lia|].
      apply (Hrows i a); [exact Hai|lia]. }
  assert (∀ fuel,
            find_id (S (S (S fuel)))
              (nodes (dom (world (loaded Number_toString t w u ce jsondata))))
              (row_id j) (next (dom w))
            = Some (3 * j + (6 + next (dom w)))) as Htable.
  { intros fuel'. erewrite find_id_below; cycle 1.
    { rewrite loaded_other by lia. by apply rendered_table. }
    { apply row_id_not_empty. }
    cbn [children with_parent table_el first_found].
    by rewrite Hhead, Hbody. }
  change (4 + fuel) with (S (S (S (S fuel)))).
  erewrite find_id_below; cycle 1.
  { exact Hc. }
  { unfold bound. by destruct (decide _). }
  rewrite bound_children.
  cbn [children append_child emptied with_children with_text app
       first_found].
  by rewrite Htable.
Qed.

Lemma loaded_view_row j mono t0 rest :
  monologues jsondata !! j = Some mono →
  mono_terms mono = t0 :: rest →
  view 2 m (3 * j + (6 + k)) = Some (monologue_row Number_toString j mono t0).
Proof using Hcont.
  intros Hj Ht0.
  assert (segments 0 (monologues jsondata) !! j = Some (segment j mono))
    as Ha by (by rewrite segments_lookup, Hj).
  destruct Hcont as (Hce & Hlt & Hkids & Hself).
  subst m k. cbn [loaded world dom nodes]. rewrite view_alter.
  - rewrite (rendered_view_row Number_toString _ (container t) ce _ _
               Hce Hlt Hkids Hself j _ Ha).
    unfold row_markup, segment, time_text, monologue_row.
    cbn [anno_id anno_start anno_end anno_text]. by rewrite Ht0.
  - intros []. unfold bound. by destruct (decide _).
Qed.
End LoadedSearch.

(** X11. Once a document is loaded, [getAnnotationNode] of the annotation
    stored at position [j] returns the row [render] made at position [j]
    of the table (and so the row showing that annotation), provided the
    container is in the document and no element the search meets before
    the table (the container, the nodes above it, the subtrees before
    it) has the id "wavesurfer-annotation-j": the ids of the rows are
    distinct, and no other node of the table has such an id. *)
Theorem getAnnotationNode_finds_row (Number_toString : float -> string)
    (querySelector : string -> JS.exn + option nat)
    (params : GeckoPluginParams) (w w' : page) (t : GeckoPlugin)
    (u : string) (jsondata : gecko_json) (ce : element)
    (j : nat) (mono : monologue) (root depth : nat) :
  constructor querySelector params w = (Ok t, w') →
  truthy (param_url params) = Some u →
  has_terms jsondata →
  container_ok (dom w) (container t) ce →
  monologues jsondata !! j = Some mono →
  elem_id ce ≠ row_id j →
  let s := run Number_toString (mkState t w') [CallInit; Respond jsondata] in
  let row := 3 * j + (6 + next (dom w)) in
  reaches (nodes (dom (world s))) (row_id j) root (container t) depth →
  ∃ d a t0 rest,
    data (this s) = Some d
    ∧ annotations d !! j = Some a
    ∧ mono_terms mono = t0 :: rest
    ∧ (∀ fuel, depth + 4 ≤ fuel →
         getAnnotationNode fuel root a s = (Ok (Some row), s))
    ∧ view 2 (nodes (dom (world s))) row
      = Some (monologue_row Number_toString j mono t0).
Proof.
  intros Hc Hu Hj Hcont Hm Hid s row.
  assert (s = loaded Number_toString t w u ce jsondata) as ->
    by exact (run_is_loaded Number_toString querySelector params w w' t u
                jsondata ce Hc Hu Hj Hcont).
  intros Hreach.
  destruct (segment_row Number_toString jsondata Hj j mono Hm)
    as (t0 & rest & Ht0 & _).
  exists (mkData tt (segments 0 (monologues jsondata))), (segment j mono),
    t0, rest.
  split; [reflexivity|]. split.
  { cbn [annotations]. by rewrite segments_lookup, Hm. }
  split; [exact Ht0|]. split.
  - intros fuel Hf. unfold getAnnotationNode, getElementById.
    cbn [segment anno_id]. fold (row_id j).
    rewrite decide_False by (intros H; by apply (row_id_not_empty j)).
    replace fuel with (depth + (4 + (fuel - (depth + 4)))) by lia.
    rewrite (find_id_reaches _ _ _ _ _ Hreach _ row); [reflexivity|].
    exact (loaded_find_row Number_toString t w u ce jsondata Hcont j mono
             _ Hm Hid).
  - exact (loaded_view_row Number_toString t w u ce jsondata Hcont j mono
             t0 rest Hm Ht0).
Qed.

(** A page with a heading before the container. *)
Definition example_document_page : page :=
  mkPage
    (mkDocument
       {[ 0 := mkElement "html" "" "" "" [] [1] None [];
          1 := mkElement "body" "" "" "" [] [2; 3] (Some 0) [];
          2 := mkElement "h1" "title" "" "Transcript" [] [] (Some 1) [];
          3 := mkElement "div" "annotations" "" "" [] [] (Some 1) [] ]} 4)
    0 [] [].

Definition example_element_params : GeckoPluginParams :=
  mkParams (ElementRef 3) (Some "t.json") None.

Lemma getAnnotationNode_finds_row_witness :
  let s := run (λ _, "")
             (mkState (mkPlugin None example_element_params 3 None None)
                example_document_page)
             [CallInit; Respond example_json] in
  ∃ a, annotations <$> data (this s) = Some [mkAnno 0 0 1.25 "hi"; a]
       ∧ getAnnotationNode 6 0 a s = (Ok (Some 13), s).
Proof.
  intros s.
  assert (container_ok (dom example_document_page) 3
            (mkElement "div" "annotations" "" "" [] [] (Some 1) [])) as Hok.
  { split; [reflexivity|]. split; [cbn; lia|].
    split; [constructor|]. apply not_elem_of_nil. }
  assert (reaches (nodes (dom (world s))) (row_id 1) 0 3 2) as Hreach.
  { apply (reaches_below _ _ 0 (mkElement "html" "" "" "" [] [1] None [])
             [] 1 [] 3 1);
      [vm_compute; reflexivity|vm_compute; discriminate|reflexivity| |].
    { intros y fuel Hy. by apply elem_of_nil in Hy. }
    apply (reaches_below _ _ 1
             (mkElement "body" "" "" "" [] [2; 3] (Some 0) [])
             [2] 3 [] 3 0);
      [vm_compute; reflexivity|vm_compute; discriminate|reflexivity|
       |apply reaches_here].
    intros y fuel Hy%list_elem_of_singleton. subst y. revert fuel.
    apply (find_id_absent _ _ 2
             (mkElement "h1" "title" "" "Transcript" [] [] (Some 1) []));
      [vm_compute; reflexivity|vm_compute; discriminate|].
    intros c fuel Hc. by apply elem_of_nil in Hc. }
  destruct (getAnnotationNode_finds_row (λ _, "") example_querySelector
              example_element_params example_document_page
              example_document_page
              (mkPlugin None example_element_params 3 None None)
              "t.json" example_json _ 1
              (mkMono 1.25%float 3%float [mkTerm "bye"; mkTerm "for now"])
              0 2 eq_refl eq_refl example_has_terms Hok eq_refl
              ltac:(vm_compute; discriminate) Hreach)
    as (d & a & t0 & rest & Hd & Ha & _ & Hfind & _).
  exists a. split; [|exact (Hfind 6 (le_n 6))].
  fold s in Hd. rewrite Hd. cbn [fmap option_fmap option_map]. f_equal.
  clear Hfind Hreach. vm_compute in Hd. injection Hd as <-.
  cbn [annotations] in Ha |- *. vm_compute in Ha. injection Ha as <-.
  reflexivity.
Defined.

(** ** Times that are no numbers, segments that end before they start *)

Definition is_NaN (x : float) : Prop := Prim2SF x = S754_nan.

Lemma le_not_NaN x y : JS.le x y = true → ¬ is_NaN x ∧ ¬ is_NaN y.
Proof.
  unfold JS.le, is_NaN. rewrite leb_spec. intros H.
  split; intros E; rewrite E in H; [discriminate H|].
  destruct (Prim2SF x); discriminate H.
Qed.

Lemma SFleb_trans x y z :
  SFleb x y = true → SFleb y z = true → SFleb x z = true.
Proof.
  unfold SFleb.
  destruct x as [sx|sx| |sx mx ex], y as [sy|sy| |sy my ey],
    z as [sz|sz| |sz mz ez];
    try destruct sx; try destruct sy; try destruct sz;
    cbn [SFcompare]; try (intros; congruence);
    change (Pos.compare_cont Eq) with Pos.compare;
    destruct (Z.compare_spec ex ey), (Z.compare_spec ey ez),
      (Z.compare_spec ex ez); try lia; try (intros; congruence); subst;
    destruct (Pos.compare_spec mx my), (Pos.compare_spec my mz),
      (Pos.compare_spec mx mz); try lia; cbn [CompOpp];
    intros; congruence.
Qed.

Lemma le_trans x y z : JS.le x y = true → JS.le y z = true → JS.le x z = true.
Proof. unfold JS.le. rewrite !leb_spec. apply SFleb_trans. Qed.

(** X12. Whatever [getRenderedAnnotation] returns is a stored annotation
    that starts no later than it ends, and neither its bounds nor the
    time asked for is NaN.  So a segment that ends before it starts, or
    has a bound that is no number, is never returned, and for a time
    that is no number nothing is. *)
Theorem getRenderedAnnotation_proper_interval (s s' : state) (time : float)
    (a : anno) :
  getRenderedAnnotation time s = (Ok (Some a), s') →
  s' = s
  ∧ (∃ d, data (this s) = Some d ∧ a ∈ annotations d)
  ∧ JS.le (anno_start a) (anno_end a) = true
  ∧ ¬ is_NaN time ∧ ¬ is_NaN (anno_start a) ∧ ¬ is_NaN (anno_end a).
Proof.
  unfold getRenderedAnnotation. run_M.
  destruct (data (this s)) as [d|] eqn:Hd; [|discriminate].
  intros [= Hr <-]. split; [reflexivity|].
  pose proof (some_scan_first time (annotations d)) as Hs.
  rewrite Hr in Hs. destruct Hs as (l1 & l2 & Hl & Hc & _).
  unfold contains in Hc. apply andb_true_iff in Hc as [H1 H2].
  destruct (le_not_NaN _ _ H1) as [Hs1 Ht].
  destruct (le_not_NaN _ _ H2) as [_ He].
  split; [|split; [exact (le_trans _ _ _ H1 H2)|auto]].
  exists d. split; [reflexivity|]. rewrite Hl.
  apply elem_of_app. right. apply list_elem_of_here.
Qed.

Lemma getRenderedAnnotation_proper_interval_witness :
  JS.le 1.25%float 3%float = true ∧ ¬ is_NaN 2%float.
Proof.
  destruct (getRenderedAnnotation_proper_interval example_state example_state
              2%float (mkAnno 1 1.25%float 3%float "bye") eq_refl)
    as (_ & _ & Hle & Ht & _).
  exact (conj Hle Ht).
Defined.

(** ** Calling [init] over and over *)

Lemma run_cons ts s a l : run ts s (a :: l) = run ts (step ts s a) l.
Proof. reflexivity. Qed.

Lemma repeated_init ts u n : ∀ s,
  truthy (param_url (params (this s))) = Some u →
  let s' := run ts s (replicate n CallInit) in
  requests (world s') = requests (world s) ++ replicate n u
  ∧ dom (world s') = dom (world s)
  ∧ emitted (world s') = emitted (world s)
  ∧ closures (world s') = closures (world s)
  ∧ table (this s') = table (this s)
  ∧ _onClick (this s') = _onClick (this s).
Proof.
  induction n as [|n IH]; intros s Hu.
  { cbn [replicate run foldl]. rewrite app_nil_r. repeat split. }
  cbn [replicate]. cbv zeta. rewrite run_cons, step_init.
  rewrite (init_url s u Hu). cbn [snd].
  match goal with
  | |- context [run ts ?s1 _] =>
      destruct (IH s1 Hu) as (-> & -> & -> & -> & -> & ->)
  end.
  cbn [world this requests dom emitted closures with_data table _onClick].
  rewrite <- app_assoc. repeat split.
Qed.

(** X13. [init] has no guard: called [n] times on a constructed plugin
    with a url, it puts [n] fetches of that url in flight, one per call,
    and does nothing else to the page; no table and no handler exist
    until an answer arrives. *)
Theorem init_fetches_on_every_call (Number_toString : float -> string)
    (querySelector : string -> JS.exn + option nat)
    (params : GeckoPluginParams) (w w' : page) (t : GeckoPlugin)
    (u : string) (n : nat) :
  constructor querySelector params w = (Ok t, w') →
  truthy (param_url params) = Some u →
  let s := run Number_toString (mkState t w') (replicate n CallInit) in
  requests (world s) = requests w ++ replicate n u
  ∧ dom (world s) = dom w
  ∧ emitted (world s) = emitted w
  ∧ table (this s) = None
  ∧ _onClick (this s) = None.
Proof.
  intros Hc Hu s.
  apply constructor_fields in Hc as (-> & _ & Ht & Ho & Hp & _).
  rewrite <- Hp in Hu.
  destruct (repeated_init Number_toString u n (mkState t w) Hu)
    as (H1 & H2 & H3 & _ & H5 & H6).
  fold s in H1, H2, H3, H5, H6. rewrite H1, H2, H3, H5, H6.
  cbn [world this]. repeat split; assumption.
Qed.

Lemma init_fetches_on_every_call_witness :
  requests (world (run (λ _, "") (mkState example_plugin example_page)
                     [CallInit; CallInit; CallInit]))
  = ["t.json"; "t.json"; "t.json"].
Proof.
  exact (proj1 (init_fetches_on_every_call (λ _, "") example_querySelector
                  example_params example_page example_page example_plugin
                  "t.json" 3 eq_refl eq_refl)).
Defined.

(** ** From a time to the segment of the loaded document *)

Lemma some_scan_lookup time (l : list anno) : ∀ j a r,
  l !! j = Some a →
  contains time a = true →
  (∀ i b, i < j → l !! i = Some b → contains time b = false) →
  some_scan time l r = Some a.
Proof.
  induction l as [|x l IH]; intros j a r Hj Ha Hb; [done|].
  cbn [some_scan].
  change (JS.le (anno_start x) time && JS.ge (anno_end x) time)
    with (contains time x).
  destruct j as [|j].
  - injection Hj as ->. by rewrite Ha.
  - rewrite (Hb 0 x (Nat.lt_0_succ j) eq_refl).
    apply (IH j a r Hj Ha). intros i b Hi Hl.
    apply (Hb (S i) b); [lia|exact Hl].
Qed.

(** X14. On a loaded document, [getRenderedAnnotation time] returns the
    segment made of the first monologue whose interval contains [time]:
    its id is the position of that monologue, its times are the
    monologue's, its text is the text of the monologue's first term
    (further terms play no part). *)
Theorem loaded_time_lookup (Number_toString : float -> string)
    (querySelector : string -> JS.exn + option nat)
    (params : GeckoPluginParams) (w w' : page) (t : GeckoPlugin)
    (u : string) (jsondata : gecko_json) (ce : element)
    (time : float) (j : nat) (mono : monologue) :
  constructor querySelector params w = (Ok t, w') →
  truthy (param_url params) = Some u →
  has_terms jsondata →
  container_ok (dom w) (container t) ce →
  monologues jsondata !! j = Some mono →
  JS.le (mono_start mono) time = true →
  JS.le time (mono_end mono) = true →
  (∀ i other, i < j → monologues jsondata !! i = Some other →
     JS.le (mono_start other) time && JS.le time (mono_end other) = false) →
  let s := run Number_toString (mkState t w') [CallInit; Respond jsondata] in
  ∃ t0 rest,
    mono_terms mono = t0 :: rest
    ∧ getRenderedAnnotation time s
      = (Ok (Some (mkAnno j (mono_start mono) (mono_end mono)
                     (term_text t0))), s).
Proof.
  intros Hc Hu Hj Hcont Hm H1 H2 Hfirst s.
  assert (s = loaded Number_toString t w u ce jsondata) as ->
    by exact (run_is_loaded Number_toString querySelector params w w' t u
                jsondata ce Hc Hu Hj Hcont).
  destruct (segment_row Number_toString jsondata Hj j mono Hm)
    as (t0 & rest & Ht0 & _).
  exists t0, rest. split; [exact Ht0|].
  unfold getRenderedAnnotation. run_M. cbn [loaded this data annotations].
  rewrite (some_scan_lookup time _ j (segment j mono) None).
  - unfold segment. by rewrite Ht0.
  - by rewrite segments_lookup, Hm.
  - unfold contains, segment. cbn [anno_start anno_end].
    by rewrite H1, H2.
  - intros i b Hi Hb. rewrite segments_lookup in Hb.
    destruct (monologues jsondata !! i) as [other|] eqn:Ho; [|done].
    injection Hb as <-. unfold contains, segment.
    cbn [anno_start anno_end]. by apply (Hfirst i other).
Qed.

Lemma loaded_time_lookup_witness :
  getRenderedAnnotation 2%float example_loaded
  = (Ok (Some (mkAnno 1 1.25%float 3%float "bye")), example_loaded).
Proof.
  destruct (loaded_time_lookup (λ _, "") example_querySelector
              example_params example_page example_page example_plugin
              "t.json" example_json _ 2%float 1
              (mkMono 1.25%float 3%float [mkTerm "bye"; mkTerm "for now"])
              eq_refl eq_refl example_has_terms example_container_ok
              eq_refl eq_refl eq_refl)
    as (t0 & rest & Ht & H).
  - intros i other Hi Ho. destruct i as [|i]; [|lia].
    cbn in Ho. injection Ho as <-. reflexivity.
  - injection Ht as <- _. exact H.
Defined.

(** ** After teardown: segments without rows *)

(** A search for [id] from the document element [root] can only hit at
    or below the node [c]: no node above [c], and no subtree beside the
    way down to [c], has this id. *)
Inductive only_below (m : gmap nat element) (id : string)
    : nat → nat → Prop :=
  | only_here c : only_below m id c c
  | only_step r e pre x post c :
      m !! r = Some e →
      elem_id e ≠ id →
      children e = pre ++ x :: post →
      (∀ y fuel, y ∈ pre ++ post → find_id fuel m id y = None) →
      only_below m id x c →
      only_below m id r c.

Lemma only_below_none m id r c :
  only_below m id r c →
  (∀ fuel, find_id fuel m id c = None) →
  ∀ fuel, find_id fuel m id r = None.
Proof.
  induction 1 as [c|r e pre x post c Hr Hid Hch Hside _ IH]; intros Hc;
    [exact Hc|].
  apply (find_id_absent m id r e Hr Hid). intros y fuel Hy.
  rewrite Hch in Hy. apply elem_of_app in Hy as [Hy|Hy].
  - apply Hside. apply elem_of_app. by left.
  - apply elem_of_cons in Hy as [->|Hy]; [by apply IH|].
    apply Hside. apply elem_of_app. by right.
Qed.

(** X15. [destroy] removes the table but keeps the data: afterwards a
    time lookup answers as before, while [getAnnotationNode] finds no
    row for any annotation (when no element of the page outside the
    container has such an id), so a host that goes from the time to the
    segment to its row gets no node. *)
Theorem destroy_keeps_data_drops_rows (Number_toString : float -> string)
    (querySelector : string -> JS.exn + option nat)
    (params : GeckoPluginParams) (w w' : page) (t : GeckoPlugin)
    (u : string) (jsondata : gecko_json) (ce : element)
    (a : anno) (root : nat) (time : float) :
  constructor querySelector params w = (Ok t, w') →
  truthy (param_url params) = Some u →
  has_terms jsondata →
  container_ok (dom w) (container t) ce →
  elem_id ce ≠ row_id (anno_id a) →
  let s0 := run Number_toString (mkState t w') [CallInit; Respond jsondata] in
  let s := run Number_toString (mkState t w')
             [CallInit; Respond jsondata; CallDestroy] in
  only_below (nodes (dom (world s))) (row_id (anno_id a)) root
    (container t) →
  data (this s) = data (this s0)
  ∧ fst (getRenderedAnnotation time s) = fst (getRenderedAnnotation time s0)
  ∧ ∀ fuel, getAnnotationNode fuel root a s = (Ok None, s).
Proof.
  intros Hc Hu Hj Hcont Hid s0 s.
  assert (s = snd (destroy s0)) as Hs by reflexivity.
  assert (s0 = loaded Number_toString t w u ce jsondata) as Hs0
    by exact (run_is_loaded Number_toString querySelector params w w' t u
                jsondata ce Hc Hu Hj Hcont).
  clearbody s s0. subst s0.
  destruct (destroy_loaded_any Number_toString t w u ce jsondata
              (loaded Number_toString t w u ce jsondata) Hcont
              eq_refl eq_refl)
    as (d' & Hd & _ & (ce' & Hce' & _ & Hch' & Hid') & _).
  rewrite Hd in Hs. cbn [snd] in Hs. subst s.
  cbn [this world dom]. intros Honly.
  split; [reflexivity|]. split; [reflexivity|].
  intros fuel. unfold getAnnotationNode, getElementById.
  cbn [world dom]. fold (row_id (anno_id a)).
  rewrite decide_False
    by (intros H; by apply (row_id_not_empty (anno_id a))).
  rewrite (only_below_none _ _ _ _ Honly); [reflexivity|].
  apply (find_id_absent _ _ _ ce' Hce').
  - by rewrite Hid'.
  - intros c fuel'. rewrite Hch'. intros Hin. by apply elem_of_nil in Hin.
Qed.

Lemma destroy_keeps_data_drops_rows_witness :
  let s := run (λ _, "")
             (mkState (mkPlugin None example_element_params 3 None None)
                example_document_page)
             [CallInit; Respond example_json; CallDestroy] in
  getAnnotationNode 6 0 (mkAnno 1 1.25%float 3%float "bye") s = (Ok None, s).
Proof.
  intros s.
  assert (container_ok (dom example_document_page) 3
            (mkElement "div" "annotations" "" "" [] [] (Some 1) [])) as Hok.
  { split; [reflexivity|]. split; [cbn; lia|].
    split; [constructor|]. apply not_elem_of_nil. }
  assert (only_below (nodes (dom (world s))) (row_id 1) 0 3) as Honly.
  { apply (only_step _ _ 0 (mkElement "html" "" "" "" [] [1] None [])
             [] 1 [] 3);
      [vm_compute; reflexivity|vm_compute; discriminate|reflexivity| |].
    { intros y fuel Hy. by apply elem_of_nil in Hy. }
    apply (only_step _ _ 1
             (mkElement "body" "" "" "" [] [2; 3] (Some 0) [])
             [2] 3 [] 3);
      [vm_compute; reflexivity|vm_compute; discriminate|reflexivity|
       |apply only_here].
    intros y fuel Hy%list_elem_of_singleton. subst y. revert fuel.
    apply (find_id_absent _ _ 2
             (mkElement "h1" "title" "" "Transcript" [] [] (Some 1) []));
      [vm_compute; reflexivity|vm_compute; discriminate|].
    intros c fuel Hc. by apply elem_of_nil in Hc. }
  exact (proj2 (proj2
           (destroy_keeps_data_drops_rows (λ _, "") example_querySelector
              example_element_params example_document_page
              example_document_page
              (mkPlugin None example_element_params 3 None None)
              "t.json" example_json _ (mkAnno 1 1.25%float 3%float "bye")
              0 0%float eq_refl eq_refl example_has_terms Hok
              ltac:(vm_compute; discriminate) Honly)) 6).
Defined.
